(** * Pagination helpers of alx-backend (0x00-pagination)

    A shallow embedding of the four Python files under [0x00-pagination]:

    - [0-simple_helper_function.py]      ([Module SimpleHelper])
    - [1-simple_pagination.py]           ([Module SimplePagination])
    - [2-hypermedia_pagination.py]       ([Module HypermediaPagination])
    - [3-hypermedia_del_pagination.py]   ([Module DelPagination])

    Every method of a [Server] class is a computation in a small state and
    exception monad over the instance's private attributes; the CSV file on
    disk is an explicit read-only argument.  Python integers are [Z], the
    dictionary of the indexed dataset is a [gmap Z Row], and the quotient
    [len(...) / page_size] is the correctly rounded binary64 value that
    CPython computes for two integers.

    Assertions are enabled (the interpreter runs without [-O]), and a list
    holds fewer than 2^63 items. *)

From Stdlib Require Import ZArith Lia.
From stdpp Require Import gmap strings list.

Local Open Scope Z_scope.

(** ** Python values, exceptions and results *)

(** A row of the CSV file as [csv.reader] yields it: a list of strings. *)
Definition Row : Type := list string.

(** A binary64 number [mantissa * 2 ^ exponent]. *)
Record float : Type := Float { mantissa : Z; exponent : Z }.

(** The values a caller can pass for [page], [page_size] and [index]. *)
Inductive py_value : Type :=
| PyNone
| PyBool (b : bool)
| PyInt (n : Z)
| PyFloat (x : float)
| PyStr (s : string).

(** [isinstance(v, int)], together with the integer [v] then stands for
    ([bool] is a subclass of [int]: [True] is 1 and [False] is 0). *)
Definition as_int (v : py_value) : option Z :=
  match v with
  | PyInt n => Some n
  | PyBool b => Some (Z.b2z b)
  | _ => None
  end.

Definition isinstance_int (v : py_value) : bool :=
  match as_int v with Some _ => true | None => false end.

Inductive py_exception : Type :=
| AssertionError
| FileNotFoundError
| IsADirectoryError
| PermissionError
| OSError
| UnicodeDecodeError
| CsvError
| IndexError
| TypeError
| ZeroDivisionError.

Inductive PyResult (A : Type) : Type :=
| Return (a : A)
| Raise (e : py_exception).
Arguments Return {A} a.
Arguments Raise {A} e.

(** ** The monad of methods: instance state and exceptions

    A method receives the instance [self] and gives back a result or an
    exception together with the instance as the call left it (an attribute
    written before an exception stays written). *)
Section Method.
Context {S : Type}.

Definition Method (A : Type) : Type := S -> PyResult A * S.

Definition ret {A} (a : A) : Method A := fun self => (Return a, self).

Definition raise {A} (e : py_exception) : Method A :=
  fun self => (Raise e, self).

Definition bind {A B} (c : Method A) (k : A -> Method B) : Method B :=
  fun self =>
    match c self with
    | (Return a, self') => k a self'
    | (Raise e, self') => (Raise e, self')
    end.

(** [assert(b)], with assertions enabled (no [-O]). *)
Definition py_assert (b : bool) : Method unit :=
  if b then ret tt else raise AssertionError.

(** A computation that cannot touch the instance. *)
Definition lift {A} (r : PyResult A) : Method A := fun self => (r, self).

Definition getattr {A} (field : S -> A) : Method A :=
  fun self => (Return (field self), self).

Definition modify (f : S -> S) : Method unit :=
  fun self => (Return tt, f self).
End Method.
Arguments Method : clear implicits.

Declare Scope method_scope.
Delimit Scope method_scope with method.
Notation "x <- c ;; k" := (bind c (fun x => k))
  (at level 100, c at next level, right associativity) : method_scope.
Notation "c ;; k" := (bind c (fun _ => k))
  (at level 100, right associativity) : method_scope.
Local Open Scope method_scope.

(** ** Lists: [len], slices, subscripts, [range] *)

Definition len {A} (l : list A) : Z := Z.of_nat (length l).

(** A slice bound [i] (or its default when omitted) brought into
    [0 .. len]: a negative bound counts from the end, and everything is
    clamped, so a slice never raises. *)
Definition slice_bound (n : Z) (default : Z) (i : option Z) : Z :=
  match i with
  | None => default
  | Some i => if i <? 0 then Z.max (i + n) 0 else Z.min i n
  end.

(** [l[start:stop]]. *)
Definition py_slice {A} (l : list A) (start stop : option Z) : list A :=
  let n := len l in
  let lo := slice_bound n 0 start in
  let hi := slice_bound n n stop in
  take (Z.to_nat (hi - lo)) (drop (Z.to_nat lo) l).

(** [l[i]]: a negative subscript counts from the end; out of range is
    an [IndexError]. *)
Definition py_getitem {A} (l : list A) (i : Z) : PyResult A :=
  let j := if i <? 0 then i + len l else i in
  if j <? 0 then Raise IndexError
  else match l !! Z.to_nat j with
       | Some x => Return x
       | None => Raise IndexError
       end.

(** [range(n)]. *)
Definition py_range (n : Z) : list Z :=
  Z.of_nat <$> seq 0 (Z.to_nat n).

(** ** The file system

    Reading a path with [open] and [csv.reader] either yields the rows of
    the file (header included) or fails.  It fails in [open], when there
    is no such file, when the path is a directory, when permission is
    denied, or on another error of the operating system; or it fails after
    the file has opened, while the rows are read, on bytes that do not
    decode or on a row the reader refuses. *)
Inductive read_failure : Type :=
| NoSuchFile
| IsADirectory
| PermissionDenied
| OtherOSError
| UndecodableBytes
| MalformedCsv.

(** The exception each failure raises ([csv.Error] for the last). *)
Definition read_exception (why : read_failure) : py_exception :=
  match why with
  | NoSuchFile => FileNotFoundError
  | IsADirectory => IsADirectoryError
  | PermissionDenied => PermissionError
  | OtherOSError => OSError
  | UndecodableBytes => UnicodeDecodeError
  | MalformedCsv => CsvError
  end.

Inductive file_read : Type :=
| Readable (rows : list Row)
| Unreadable (why : read_failure).

Definition FileSystem : Type := string -> file_read.

(** [with open(path) as f: [row for row in csv.reader(f)]]: the rows, or
    the exception of the failure, raised before anything is assigned. *)
Definition read_csv {S} (fs : FileSystem) (path : string)
  : Method S (list Row) :=
  match fs path with
  | Readable rows => ret rows
  | Unreadable why => raise (read_exception why)
  end.

(** ** 0-simple_helper_function.py *)
Module SimpleHelper.

Definition index_range (page page_size : Z) : Z * Z :=
  ((page - 1) * page_size, page * page_size).

End SimpleHelper.

(** ** 1-simple_pagination.py *)
Module SimplePagination.

Definition index_range (page page_size : Z) : Z * Z :=
  ((page - 1) * page_size, page * page_size).

(** The instance: its one private attribute, [None] until loaded. *)
Record Server : Type := { _Server__dataset : option (list Row) }.

Definition DATA_FILE : string := "Popular_Baby_Names.csv".

(** [Server()]. *)
Definition __init__ : Server := {| _Server__dataset := None |}.

Definition dataset (fs : FileSystem) : Method Server (list Row) :=
  cached <- getattr _Server__dataset ;;
  match cached with
  | Some rows => ret rows
  | None =>
      dataset <- read_csv fs DATA_FILE ;;
      let rows := py_slice dataset (Some 1) None in
      modify (fun _ => {| _Server__dataset := Some rows |}) ;;
      ret rows
  end.

Definition get_page (fs : FileSystem) (page page_size : py_value)
  : Method Server (list Row) :=
  py_assert (isinstance_int page && isinstance_int page_size) ;;
  match as_int page, as_int page_size with
  | Some p, Some ps =>
      py_assert ((p >? 0) && (ps >? 0)) ;;
      let '(start, end_) := index_range p ps in
      rows <- dataset fs ;;
      ret (py_slice rows (Some start) (Some end_))
  | _, _ => raise TypeError
  end.

End SimplePagination.

(** ** True division of integers and [math.ceil]

    [a / b] on two Python integers is the quotient rounded once, to the
    nearest binary64 number, ties to even: 53 significant bits, exponent
    of the last place at least -1074, and a quotient of at most 2^-1075
    becomes 0.0 without any error.  The quotients taken here have a list
    length as numerator, which is below 2^63, far under the overflow
    threshold 2^1024; [OverflowError] is therefore not represented. *)

Definition float_prec : Z := 53.
Definition float_emin : Z := -1074.

(** [b * 2^d <= a], for an exponent [d] of either sign. *)
Definition scaled_leb (b d a : Z) : bool :=
  if 0 <=? d then b * 2 ^ d <=? a else b <=? a * 2 ^ (- d).

(** The binade of [a / b] for positive [a] and [b]: the [k] with
    [2^(k-1) <= a / b < 2^k]. *)
Definition quotient_mag (a b : Z) : Z :=
  let d := Z.log2 a - Z.log2 b in
  if scaled_leb b d a then d + 1 else d.

(** [n / d] rounded to the nearest integer, ties to even ([d > 0]). *)
Definition round_half_even_div (n d : Z) : Z :=
  let q := n / d in
  let r := n mod d in
  if 2 * r <? d then q
  else if d <? 2 * r then q + 1
  else if Z.even q then q else q + 1.

Definition int_true_divide (a b : Z) : PyResult float :=
  if b =? 0 then Raise ZeroDivisionError
  else if a =? 0 then Return (Float 0 0)
  else
    let sign := Z.sgn a * Z.sgn b in
    let a' := Z.abs a in
    let b' := Z.abs b in
    let e := Z.max (quotient_mag a' b' - float_prec) float_emin in
    let m := if 0 <=? e then round_half_even_div a' (b' * 2 ^ e)
             else round_half_even_div (a' * 2 ^ (- e)) b' in
    Return (Float (sign * m) e).

(** [math.ceil(x)]: the least integer not below [x]. *)
Definition math_ceil (x : float) : Z :=
  if 0 <=? exponent x then mantissa x * 2 ^ exponent x
  else - ((- mantissa x) / 2 ^ (- exponent x)).

(** ** 2-hypermedia_pagination.py *)

(** The dictionary [get_hyper] returns, one field per key; [None] in
    [next_page] and [prev_page] is Python's [None]. *)
Module Page.
Record t : Type := Make {
  page_size : Z;
  page : py_value;
  data : list Row;
  next_page : option Z;
  prev_page : option Z;
  total_pages : Z
}.
End Page.

Module HypermediaPagination.

Definition index_range (page page_size : Z) : Z * Z :=
  ((page - 1) * page_size, page * page_size).

Record Server : Type := { _Server__dataset : option (list Row) }.

Definition DATA_FILE : string := "Popular_Baby_Names.csv".

Definition __init__ : Server := {| _Server__dataset := None |}.

Definition dataset (fs : FileSystem) : Method Server (list Row) :=
  cached <- getattr _Server__dataset ;;
  match cached with
  | Some rows => ret rows
  | None =>
      dataset <- read_csv fs DATA_FILE ;;
      let rows := py_slice dataset (Some 1) None in
      modify (fun _ => {| _Server__dataset := Some rows |}) ;;
      ret rows
  end.

Definition get_page (fs : FileSystem) (page page_size : py_value)
  : Method Server (list Row) :=
  py_assert (isinstance_int page && isinstance_int page_size) ;;
  match as_int page, as_int page_size with
  | Some p, Some ps =>
      py_assert ((p >? 0) && (ps >? 0)) ;;
      let '(start, end_) := index_range p ps in
      rows <- dataset fs ;;
      ret (py_slice rows (Some start) (Some end_))
  | _, _ => raise TypeError
  end.

(** [len(self.__dataset)]: the attribute is read as it is, without going
    through [dataset()]; [len(None)] is a [TypeError]. *)
Definition len_dataset : Method Server Z :=
  cached <- getattr _Server__dataset ;;
  match cached with
  | Some rows => ret (len rows)
  | None => raise TypeError
  end.

Definition get_hyper (fs : FileSystem) (page page_size : py_value)
  : Method Server Page.t :=
  dataset_records <- get_page fs page page_size ;;
  n <- len_dataset ;;
  match as_int page, as_int page_size with
  | Some p, Some ps =>
      quotient <- lift (int_true_divide n ps) ;;
      let total_pages := math_ceil quotient in
      ret {| Page.page_size := len dataset_records;
             Page.page := page;
             Page.data := dataset_records;
             Page.next_page :=
               if p + 1 <=? total_pages then Some (p + 1) else None;
             Page.prev_page :=
               if p - 1 >? 0 then Some (p - 1) else None;
             Page.total_pages := total_pages |}
  | _, _ => raise TypeError
  end.

End HypermediaPagination.

(** ** 3-hypermedia_del_pagination.py *)

(** Modelled from the spec: the descriptor of deletion-resilient pagination
    (fields [index], [next_index], [page_size], [data]); the body of
    [get_hyper_index] in the source builds no dictionary at all. *)
Module IndexPage.
Record t : Type := Make {
  index : Z;
  next_index : Z;
  page_size : Z;
  data : list Row
}.
End IndexPage.

Module DelPagination.

Record Server : Type := {
  _Server__dataset : option (list Row);
  _Server__indexed_dataset : option (gmap Z Row)
}.

Definition DATA_FILE : string := "Popular_Baby_Names.csv".

Definition __init__ : Server :=
  {| _Server__dataset := None; _Server__indexed_dataset := None |}.

Definition set_dataset (rows : list Row) (self : Server) : Server :=
  {| _Server__dataset := Some rows;
     _Server__indexed_dataset := _Server__indexed_dataset self |}.

Definition set_indexed_dataset (d : gmap Z Row) (self : Server) : Server :=
  {| _Server__dataset := _Server__dataset self;
     _Server__indexed_dataset := Some d |}.

Definition dataset (fs : FileSystem) : Method Server (list Row) :=
  cached <- getattr _Server__dataset ;;
  match cached with
  | Some rows => ret rows
  | None =>
      dataset <- read_csv fs DATA_FILE ;;
      let rows := py_slice dataset (Some 1) None in
      modify (set_dataset rows) ;;
      ret rows
  end.

(** [{i: rows[i] for i in keys}], built key by key. *)
Fixpoint dict_comprehension (rows : list Row) (keys : list Z)
    (acc : gmap Z Row) : PyResult (gmap Z Row) :=
  match keys with
  | [] => Return acc
  | i :: keys' =>
      match py_getitem rows i with
      | Return row => dict_comprehension rows keys' (<[i := row]> acc)
      | Raise e => Raise e
      end
  end.

Definition indexed_dataset (fs : FileSystem)
  : Method Server (gmap Z Row) :=
  cached <- getattr _Server__indexed_dataset ;;
  match cached with
  | Some d => ret d
  | None =>
      dataset <- dataset fs ;;
      let truncated_dataset := py_slice dataset None (Some 1000) in
      d <- lift (dict_comprehension truncated_dataset
                   (py_range (len truncated_dataset)) ∅) ;;
      modify (set_indexed_dataset d) ;;
      ret d
  end.

(** The body is [pass]: whatever the arguments, the call returns
    [None] and leaves the instance alone. *)
Definition get_hyper_index (index page_size : py_value)
  : Method Server (option IndexPage.t) :=
  ret None.

End DelPagination.

(** ** Vocabulary of the statements *)

(** An integer (in the sense of [isinstance]) that is at least 1. *)
Definition positive_int (v : py_value) : bool :=
  match as_int v with
  | Some n => 0 <? n
  | None => false
  end.

(** [page] or [page_size] is not an integer, or is below 1. *)
Definition invalid_arguments (page page_size : py_value) : Prop :=
  as_int page = None \/ as_int page_size = None \/
  (exists p, as_int page = Some p /\ p < 1) \/
  (exists ps, as_int page_size = Some ps /\ ps < 1).

(** [c] is the ceiling of [n / d] for a positive [d]: the least integer
    with [n <= c * d]. *)
Definition is_ceiling (c n d : Z) : Prop := (c - 1) * d < n <= c * d.

(** Calling a method again and again: the calls are made one after the
    other on the same instance, each with the file system as it is at that
    moment. *)
Fixpoint call_each {S A} (method : FileSystem -> Method S A)
    (fss : list FileSystem) (self : S) : list (PyResult A) * S :=
  match fss with
  | [] => ([], self)
  | fs :: fss' =>
      let '(r, self') := method fs self in
      let '(rs, self'') := call_each method fss' self' in
      (r :: rs, self'')
  end.

(** A record is removed from a built index: the client's
    [del index[key]] on the dictionary that [indexed_dataset()] returned,
    which is the very object the instance holds, for a key that is
    present. *)
Definition delete_key (key : Z) (self : DelPagination.Server)
  : DelPagination.Server :=
  {| DelPagination._Server__dataset := DelPagination._Server__dataset self;
     DelPagination._Server__indexed_dataset :=
       delete key <$> DelPagination._Server__indexed_dataset self |}.

(** ** Concrete inputs *)

(** A disk whose only file is the data file, with the given rows (header
    first), or with no file at all. *)
Definition disk (file : option (list Row)) : FileSystem :=
  fun path =>
    match file with
    | Some rows =>
        if String.eqb path "Popular_Baby_Names.csv" then Readable rows
        else Unreadable NoSuchFile
    | None => Unreadable NoSuchFile
    end.

Definition header : Row := ["Year"; "Name"].
Definition record_A : Row := ["2016"; "A"].
Definition record_B : Row := ["2016"; "B"].
Definition record_C : Row := ["2016"; "C"].
Definition record_D : Row := ["2016"; "D"].

(** A file of four records, and one of fifty. *)
Definition four_records : list Row :=
  [header; record_A; record_B; record_C; record_D].
Definition fifty_records : list Row := header :: replicate 50 record_A.

(** ** Sequences of calls *)

(** [[method(a) for a in args]] on one instance: the calls are made in
    order, and the first exception ends them. *)
Fixpoint for_each {S A B} (method : A -> Method S B) (args : list A)
  : Method S (list B) :=
  match args with
  | [] => ret []
  | a :: args' =>
      b <- method a ;;
      bs <- for_each method args' ;;
      ret (b :: bs)
  end.

(** The page numbers [1 .. k]. *)
Definition page_numbers (k : nat) : list py_value :=
  (fun i => PyInt (Z.of_nat i)) <$> seq 1 k.

(** One call of a method of 3-hypermedia_del_pagination.py, and what a
    sequence of such calls, each made with the file system of its moment,
    leaves of the instance. *)
Inductive del_call : Type :=
| CallDataset
| CallIndexedDataset
| CallGetHyperIndex (index page_size : py_value).

Definition run_del_call (fs : FileSystem) (c : del_call)
    (self : DelPagination.Server) : DelPagination.Server :=
  match c with
  | CallDataset => (DelPagination.dataset fs self).2
  | CallIndexedDataset => (DelPagination.indexed_dataset fs self).2
  | CallGetHyperIndex index page_size =>
      (DelPagination.get_hyper_index index page_size self).2
  end.

Definition run_del_calls (calls : list (FileSystem * del_call))
    (self : DelPagination.Server) : DelPagination.Server :=
  foldl (fun self '(fs, c) => run_del_call fs c self) self calls.

(** The index, once built, is the first 1000 rows of the cached dataset,
    position by position. *)
Definition index_consistent (self : DelPagination.Server) : Prop :=
  forall d,
    DelPagination._Server__indexed_dataset self = Some d ->
    exists rows,
      DelPagination._Server__dataset self = Some rows /\
      forall k : Z,
        d !! k =
          if decide (0 <= k < Z.min (len rows) 1000)
          then rows !! Z.to_nat k
          else None.

(** * Properties *)

(** Unfolds the monad so that a method applied to an instance computes. *)
Ltac run_method :=
  cbv [bind ret raise getattr modify lift py_assert read_csv].

(** ** Lists and slices *)

Lemma len_nonneg {A} (l : list A) : 0 <= len l.
Proof. unfold len. lia. Qed.

Lemma len_nil {A} : len (@nil A) = 0.
Proof. reflexivity. Qed.

(** A slice between two bounds that are not negative, read element by
    element: position [i] of the slice is position [start + i] of the
    list, for [i] below [stop - start]. *)
Lemma py_slice_lookup {A} (l : list A) (start stop : Z) (i : nat) :
  0 <= start ->
  0 <= stop ->
  py_slice l (Some start) (Some stop) !! i =
    if Z.of_nat i <? stop - start then l !! (Z.to_nat start + i)%nat
    else None.
Proof.
  intros Hstart Hstop. unfold py_slice, slice_bound, len.
  destruct (Z.ltb_spec start 0) as [|_]; [lia|].
  destruct (Z.ltb_spec stop 0) as [|_]; [lia|].
  set (n := Z.of_nat (length l)).
  destruct (Z.ltb_spec (Z.of_nat i) (stop - start)) as [Hi|Hi].
  - destruct (decide (Z.of_nat i < Z.min stop n - Z.min start n)) as [Hin|Hout].
    + rewrite lookup_take_lt by lia. rewrite lookup_drop.
      f_equal. lia.
    + rewrite lookup_take_ge by lia.
      symmetry. apply lookup_ge_None. subst n. lia.
  - apply lookup_take_ge. lia.
Qed.

Lemma py_slice_length {A} (l : list A) (start stop : Z) :
  0 <= start ->
  start <= stop ->
  len (py_slice l (Some start) (Some stop)) <= stop - start.
Proof.
  intros Hstart Hstop. unfold py_slice, slice_bound, len.
  destruct (Z.ltb_spec start 0) as [|_]; [lia|].
  destruct (Z.ltb_spec stop 0) as [|_]; [lia|].
  rewrite length_take, length_drop. lia.
Qed.

(** A slice that starts at or after the end of the list is empty. *)
Lemma py_slice_beyond {A} (l : list A) (start stop : Z) :
  len l <= start ->
  py_slice l (Some start) (Some stop) = [].
Proof.
  intros Hlen. unfold py_slice, slice_bound. pose proof (len_nonneg l).
  destruct (Z.ltb_spec start 0) as [|_]; [lia|].
  rewrite (drop_ge l); [apply take_nil|]. unfold len in *. lia.
Qed.

(** [l[:stop]] for a bound that is not negative. *)
Lemma py_slice_prefix {A} (l : list A) (stop : Z) :
  0 <= stop ->
  py_slice l None (Some stop) = take (Z.to_nat stop) l.
Proof.
  intros Hstop. unfold py_slice, slice_bound.
  destruct (Z.ltb_spec stop 0) as [|_]; [lia|].
  rewrite Z.sub_0_r. change (drop (Z.to_nat 0) l) with l. unfold len.
  destruct (Z.min_spec stop (Z.of_nat (length l))) as [[? ->]|[? ->]].
  - reflexivity.
  - rewrite Nat2Z.id, !take_ge; [reflexivity|lia|lia].
Qed.

(** A subscript inside the list. *)
Lemma py_getitem_lookup {A} (l : list A) (i : nat) (x : A) :
  l !! i = Some x ->
  py_getitem l (Z.of_nat i) = Return x.
Proof.
  intros Hi. unfold py_getitem.
  destruct (Z.ltb_spec (Z.of_nat i) 0) as [|_]; [lia|].
  destruct (Z.ltb_spec (Z.of_nat i) 0) as [|_]; [lia|].
  now rewrite Nat2Z.id, Hi.
Qed.

(** ** Arguments that pass the two assertions of [get_page] *)

Lemma positive_int_spec (v : py_value) :
  positive_int v = true <-> exists n, as_int v = Some n /\ 1 <= n.
Proof.
  unfold positive_int. destruct (as_int v) as [n|].
  - rewrite Z.ltb_lt. split.
    + intros Hn. exists n. split; [reflexivity|lia].
    + intros (m & Hm & Hle). injection Hm as ->. lia.
  - split; [discriminate|]. intros (m & Hm & _). discriminate.
Qed.

Lemma positive_int_false (v : py_value) :
  positive_int v = false <->
  as_int v = None \/ exists n, as_int v = Some n /\ n < 1.
Proof.
  unfold positive_int. destruct (as_int v) as [n|].
  - rewrite Z.ltb_ge. split.
    + intros Hn. right. exists n. split; [reflexivity|lia].
    + intros [Hm|(m & Hm & Hlt)]; [discriminate|]. injection Hm as ->. lia.
  - split; [now left|reflexivity].
Qed.

(** ** 1-simple_pagination.py: [dataset] and [get_page] *)
Section SimplePaginationFacts.
Import SimplePagination.
Variable fs : FileSystem.

Lemma simple_dataset_cached (self : Server) (rows : list Row) :
  _Server__dataset self = Some rows ->
  dataset fs self = (Return rows, self).
Proof. intros H. unfold dataset. run_method. now rewrite H. Qed.

Lemma simple_dataset_load (self : Server) (file : list Row) :
  _Server__dataset self = None ->
  fs DATA_FILE = Readable file ->
  dataset fs self =
    (Return (py_slice file (Some 1) None),
     {| _Server__dataset := Some (py_slice file (Some 1) None) |}).
Proof. intros H Hfs. unfold dataset. run_method. now rewrite H, Hfs. Qed.

Lemma simple_dataset_missing (self : Server) (why : read_failure) :
  _Server__dataset self = None ->
  fs DATA_FILE = Unreadable why ->
  dataset fs self = (Raise (read_exception why), self).
Proof. intros H Hfs. unfold dataset. run_method. now rewrite H, Hfs. Qed.

(** What [dataset] returns is what the attribute holds afterwards. *)
Lemma simple_dataset_returns (self self' : Server) (rows : list Row) :
  dataset fs self = (Return rows, self') ->
  _Server__dataset self' = Some rows.
Proof.
  unfold dataset. run_method.
  destruct (_Server__dataset self) as [cached|] eqn:Hc.
  - intros [= <- <-]. exact Hc.
  - destruct (fs DATA_FILE); [|discriminate]. now intros [= <- <-].
Qed.

(** [dataset] returns exactly when the dataset is cached already or the
    data file can be read. *)
Lemma simple_dataset_loads (self : Server) :
  (exists rows self', dataset fs self = (Return rows, self')) <->
  is_Some (_Server__dataset self) \/
  exists file, fs DATA_FILE = Readable file.
Proof.
  unfold dataset. run_method.
  destruct (_Server__dataset self) as [cached|].
  - split; [intros _; left; eauto|]. intros _. eauto.
  - destruct (fs DATA_FILE) as [file|].
    + split; [intros _; right; eauto|]. intros _. eauto.
    + split.
      * intros (rows & self' & Habs). discriminate.
      * intros [[x Habs]|[x Habs]]; discriminate.
Qed.

Lemma simple_dataset_no_assertion (self : Server) :
  (dataset fs self).1 <> Raise AssertionError.
Proof.
  unfold dataset. run_method.
  destruct (_Server__dataset self); [discriminate|].
  destruct (fs DATA_FILE) as [file|[]]; discriminate.
Qed.

Lemma simple_get_page_invalid (page page_size : py_value) (self : Server) :
  positive_int page && positive_int page_size = false ->
  get_page fs page page_size self = (Raise AssertionError, self).
Proof.
  unfold get_page, positive_int, isinstance_int. run_method.
  destruct (as_int page) as [p|]; [|reflexivity].
  destruct (as_int page_size) as [ps|]; [|reflexivity].
  cbn [andb]. rewrite !Z.gtb_ltb. now intros ->.
Qed.

Lemma simple_get_page_valid (page page_size : py_value) (p ps : Z)
    (self : Server) :
  as_int page = Some p ->
  as_int page_size = Some ps ->
  1 <= p ->
  1 <= ps ->
  get_page fs page page_size self =
    match dataset fs self with
    | (Return rows, self') =>
        (Return (py_slice rows (Some ((p - 1) * ps)) (Some (p * ps))), self')
    | (Raise e, self') => (Raise e, self')
    end.
Proof.
  intros Hp Hps Hp1 Hps1.
  unfold get_page, isinstance_int, index_range. rewrite Hp, Hps.
  run_method. cbn [andb]. rewrite !Z.gtb_ltb.
  destruct (Z.ltb_spec 0 p) as [_|]; [|lia].
  destruct (Z.ltb_spec 0 ps) as [_|]; [|lia].
  cbn [andb]. reflexivity.
Qed.
End SimplePaginationFacts.

(** ** True division never fails on a divisor that is not zero *)

Lemma int_true_divide_returns (a b : Z) :
  b <> 0 -> exists q, int_true_divide a b = Return q.
Proof.
  intros Hb. unfold int_true_divide.
  destruct (Z.eqb_spec b 0) as [|_]; [contradiction|].
  destruct (a =? 0); eexists; reflexivity.
Qed.

(** ** 2-hypermedia_pagination.py: [dataset], [get_page] and [get_hyper] *)
Section HypermediaPaginationFacts.
Import HypermediaPagination.
Variable fs : FileSystem.

Lemma hyper_dataset_cached (self : Server) (rows : list Row) :
  _Server__dataset self = Some rows ->
  dataset fs self = (Return rows, self).
Proof. intros H. unfold dataset. run_method. now rewrite H. Qed.

Lemma hyper_dataset_load (self : Server) (file : list Row) :
  _Server__dataset self = None ->
  fs DATA_FILE = Readable file ->
  dataset fs self =
    (Return (py_slice file (Some 1) None),
     {| _Server__dataset := Some (py_slice file (Some 1) None) |}).
Proof. intros H Hfs. unfold dataset. run_method. now rewrite H, Hfs. Qed.

Lemma hyper_dataset_returns (self self' : Server) (rows : list Row) :
  dataset fs self = (Return rows, self') ->
  _Server__dataset self' = Some rows.
Proof.
  unfold dataset. run_method.
  destruct (_Server__dataset self) as [cached|] eqn:Hc.
  - intros [= <- <-]. exact Hc.
  - destruct (fs DATA_FILE); [|discriminate]. now intros [= <- <-].
Qed.

(** [dataset] returns exactly when the dataset is cached already or the
    data file can be read. *)
Lemma hyper_dataset_loads (self : Server) :
  (exists rows self', dataset fs self = (Return rows, self')) <->
  is_Some (_Server__dataset self) \/
  exists file, fs DATA_FILE = Readable file.
Proof.
  unfold dataset. run_method.
  destruct (_Server__dataset self) as [cached|].
  - split; [intros _; left; eauto|]. intros _. eauto.
  - destruct (fs DATA_FILE) as [file|].
    + split; [intros _; right; eauto|]. intros _. eauto.
    + split.
      * intros (rows & self' & Habs). discriminate.
      * intros [[x Habs]|[x Habs]]; discriminate.
Qed.

Lemma hyper_dataset_no_assertion (self : Server) :
  (dataset fs self).1 <> Raise AssertionError.
Proof.
  unfold dataset. run_method.
  destruct (_Server__dataset self); [discriminate|].
  destruct (fs DATA_FILE) as [file|[]]; discriminate.
Qed.

Lemma hyper_get_page_invalid (page page_size : py_value) (self : Server) :
  positive_int page && positive_int page_size = false ->
  get_page fs page page_size self = (Raise AssertionError, self).
Proof.
  unfold get_page, positive_int, isinstance_int. run_method.
  destruct (as_int page) as [p|]; [|reflexivity].
  destruct (as_int page_size) as [ps|]; [|reflexivity].
  cbn [andb]. rewrite !Z.gtb_ltb. now intros ->.
Qed.

Lemma hyper_get_page_valid (page page_size : py_value) (p ps : Z)
    (self : Server) :
  as_int page = Some p ->
  as_int page_size = Some ps ->
  1 <= p ->
  1 <= ps ->
  get_page fs page page_size self =
    match dataset fs self with
    | (Return rows, self') =>
        (Return (py_slice rows (Some ((p - 1) * ps)) (Some (p * ps))), self')
    | (Raise e, self') => (Raise e, self')
    end.
Proof.
  intros Hp Hps Hp1 Hps1.
  unfold get_page, isinstance_int, index_range. rewrite Hp, Hps.
  run_method. cbn [andb]. rewrite !Z.gtb_ltb.
  destruct (Z.ltb_spec 0 p) as [_|]; [|lia].
  destruct (Z.ltb_spec 0 ps) as [_|]; [|lia].
  cbn [andb]. reflexivity.
Qed.

(** [get_hyper] stops where [get_page] stops, with the same exception
    and the same instance. *)
Lemma hyper_get_hyper_raises (page page_size : py_value)
    (self self' : Server) (e : py_exception) :
  get_page fs page page_size self = (Raise e, self') ->
  get_hyper fs page page_size self = (Raise e, self').
Proof. intros H. unfold get_hyper. cbv [bind]. now rewrite H. Qed.

(** With valid arguments and a dataset that loads, [get_hyper] returns
    the dictionary below; [q] is the binary64 quotient
    [len(self.__dataset) / page_size]. *)
Lemma hyper_get_hyper_valid (page page_size : py_value) (p ps : Z)
    (self self' : Server) (rows : list Row) :
  as_int page = Some p ->
  as_int page_size = Some ps ->
  1 <= p ->
  1 <= ps ->
  dataset fs self = (Return rows, self') ->
  exists q,
    int_true_divide (len rows) ps = Return q /\
    get_hyper fs page page_size self =
      (Return
         {| Page.page_size :=
              len (py_slice rows (Some ((p - 1) * ps)) (Some (p * ps)));
            Page.page := page;
            Page.data := py_slice rows (Some ((p - 1) * ps)) (Some (p * ps));
            Page.next_page :=
              if p + 1 <=? math_ceil q then Some (p + 1) else None;
            Page.prev_page := if p - 1 >? 0 then Some (p - 1) else None;
            Page.total_pages := math_ceil q |},
       self').
Proof.
  intros Hp Hps Hp1 Hps1 Hds.
  destruct (int_true_divide_returns (len rows) ps) as [q Hq]; [lia|].
  exists q. split; [exact Hq|].
  unfold get_hyper, len_dataset. cbv [bind].
  rewrite (hyper_get_page_valid page page_size p ps self Hp Hps Hp1 Hps1).
  rewrite Hds. run_method.
  rewrite (hyper_dataset_returns _ _ _ Hds), Hp, Hps, Hq.
  reflexivity.
Qed.
End HypermediaPaginationFacts.

(** ** The ceiling of a binary64 quotient

    Where [math.ceil(a / b)] is the exact ceiling of the quotient: the
    rounding of [a / b] moves it by at most half a unit in the last place,
    and for [a] below 2^53 and [b] below 2^1075 that is too little to cross
    an integer or to reach zero. *)
Section BinaryQuotient.

(** Rounding to the nearest integer is off by at most one half. *)
Lemma round_half_even_div_error (n d : Z) :
  0 < d ->
  2 * (round_half_even_div n d * d) - d <= 2 * n
  /\ 2 * n <= 2 * (round_half_even_div n d * d) + d.
Proof.
  intros Hd. unfold round_half_even_div.
  pose proof (Z.div_mod n d ltac:(lia)) as Hdm.
  pose proof (Z.mod_pos_bound n d Hd) as Hr.
  set (q := n / d) in *. set (r := n mod d) in *.
  destruct (Z.ltb_spec (2 * r) d); [nia|].
  destruct (Z.ltb_spec d (2 * r)); [nia|].
  destruct (Z.even q); nia.
Qed.

(** Integer ceiling written with floor division, as [math_ceil] does. *)
Lemma ceil_div_spec (m P : Z) :
  0 < P ->
  (- ((- m) / P) - 1) * P < m /\ m <= - ((- m) / P) * P.
Proof.
  intros HP.
  pose proof (Z.div_mod (- m) P ltac:(lia)) as Hdm.
  pose proof (Z.mod_pos_bound (- m) P HP) as Hr.
  nia.
Qed.

Lemma quotient_mag_upper (a b : Z) :
  quotient_mag a b <= Z.log2 a - Z.log2 b + 1.
Proof. unfold quotient_mag. destruct (scaled_leb _ _ _); lia. Qed.

(** [quotient_mag] finds the binade: [2^(k-1) <= a / b < 2^k]. *)
Lemma quotient_mag_spec (a b : Z) :
  0 < a ->
  0 < b ->
  scaled_leb b (quotient_mag a b - 1) a = true /\
  scaled_leb b (quotient_mag a b) a = false.
Proof.
  intros Ha Hb.
  pose proof (Z.log2_spec a Ha) as [Hal Hau].
  pose proof (Z.log2_spec b Hb) as [Hbl Hbu].
  pose proof (Z.log2_nonneg a) as Hla.
  pose proof (Z.log2_nonneg b) as Hlb.
  unfold quotient_mag.
  set (la := Z.log2 a) in *. set (lb := Z.log2 b) in *.
  destruct (scaled_leb b (la - lb) a) eqn:Hd.
  - replace (la - lb + 1 - 1) with (la - lb) by lia.
    split; [exact Hd|]. unfold scaled_leb.
    destruct (Z.leb_spec 0 (la - lb + 1)) as [Hs|Hs].
    + apply Z.leb_gt.
      replace (Z.succ la) with (lb + (la - lb + 1)) in Hau by lia.
      rewrite Z.pow_add_r in Hau by lia.
      assert (0 < 2 ^ (la - lb + 1)) by (apply Z.pow_pos_nonneg; lia).
      nia.
    + apply Z.leb_gt.
      assert (0 < 2 ^ (- (la - lb + 1))) as Hp
        by (apply Z.pow_pos_nonneg; lia).
      assert (2 ^ Z.succ la * 2 ^ (- (la - lb + 1)) = 2 ^ lb) as Heq.
      { rewrite <- Z.pow_add_r by lia. f_equal. lia. }
      nia.
  - split; [|exact Hd]. unfold scaled_leb.
    destruct (Z.leb_spec 0 (la - lb - 1)) as [Hs|Hs].
    + apply Z.leb_le.
      assert (0 < 2 ^ (la - lb - 1)) as Hp by (apply Z.pow_pos_nonneg; lia).
      assert (2 ^ Z.succ lb * 2 ^ (la - lb - 1) = 2 ^ la) as Heq.
      { rewrite <- Z.pow_add_r by lia. f_equal. lia. }
      nia.
    + apply Z.leb_le.
      assert (0 < 2 ^ (- (la - lb - 1))) as Hp
        by (apply Z.pow_pos_nonneg; lia).
      assert (2 ^ la * 2 ^ (- (la - lb - 1)) = 2 ^ Z.succ lb) as Heq.
      { rewrite <- Z.pow_add_r by lia. f_equal. lia. }
      nia.
Qed.

(** The exponent of the last place of [a / b], when [a] has at most 53
    bits: never positive, and fine enough to separate multiples of
    [1 / b]. *)
Lemma quotient_exponent (a b : Z) :
  1 <= a < 2 ^ 53 ->
  1 <= b < 2 ^ 1075 ->
  let e := Z.max (quotient_mag a b - float_prec) float_emin in
  float_emin <= e <= 0 /\ b < 2 ^ (1 - e).
Proof.
  intros Ha Hb e.
  assert (Z.log2 a < 53) as Hla by (apply Z.log2_lt_pow2; lia).
  pose proof (Z.log2_nonneg b) as Hlb.
  pose proof (Z.log2_spec b ltac:(lia)) as [_ Hbu].
  pose proof (quotient_mag_upper a b) as Hk.
  unfold float_prec, float_emin in *.
  split; [lia|].
  destruct (Z.max_spec (quotient_mag a b - 53) (-1074)) as [[_ He]|[_ He]].
  - replace (1 - e) with 1075 by lia. lia.
  - eapply Z.lt_le_trans; [exact Hbu|].
    apply Z.pow_le_mono_r; lia.
Qed.

(** [math.ceil(a / b)] is the least [c] with [a <= c * b]. *)
Lemma math_ceil_int_true_divide (a b : Z) :
  0 <= a < 2 ^ 53 ->
  1 <= b < 2 ^ 1075 ->
  exists q,
    int_true_divide a b = Return q /\
    (math_ceil q - 1) * b < a <= math_ceil q * b.
Proof.
  intros Ha Hb. unfold int_true_divide.
  destruct (Z.eqb_spec b 0) as [|_]; [lia|].
  destruct (Z.eqb_spec a 0) as [->|Ha0].
  { eexists. split; [reflexivity|]. unfold math_ceil. simpl. lia. }
  rewrite (Z.abs_eq a), (Z.abs_eq b) by lia.
  rewrite (Z.sgn_pos a), (Z.sgn_pos b) by lia.
  destruct (quotient_exponent a b ltac:(lia) Hb) as [He Hfine].
  set (e := Z.max (quotient_mag a b - float_prec) float_emin) in *.
  eexists. split; [reflexivity|].
  unfold math_ceil. cbn [mantissa exponent]. rewrite !Z.mul_1_l.
  assert (0 < 2 ^ (- e)) as HP by (apply Z.pow_pos_nonneg; lia).
  assert (2 ^ (1 - e) = 2 * 2 ^ (- e)) as Hpow.
  { replace (1 - e) with (Z.succ (- e)) by lia.
    apply Z.pow_succ_r. lia. }
  rewrite Hpow in Hfine.
  destruct (Z.leb_spec 0 e) as [He0|He0].
  - assert (e = 0) as -> by lia.
    change (2 ^ 0) with 1 in *. change (2 ^ (- 0)) with 1 in *.
    rewrite !Z.mul_1_r.
    pose proof (round_half_even_div_error a b ltac:(lia)) as Hm.
    set (m := round_half_even_div a b) in *. nia.
  - pose proof (round_half_even_div_error (a * 2 ^ (- e)) b ltac:(lia))
      as Hm.
    set (m := round_half_even_div (a * 2 ^ (- e)) b) in *.
    pose proof (ceil_div_spec m (2 ^ (- e)) HP) as Hc.
    set (c := - ((- m) / 2 ^ (- e))) in *.
    set (P := 2 ^ (- e)) in *.
    split.
    + destruct (Z.lt_ge_cases ((c - 1) * b) a) as [|Hle]; [assumption|].
      exfalso.
      assert ((c - 1) * P + 1 <= m) as Hm1 by lia.
      assert (((c - 1) * P + 1) * b <= m * b) as Hm2
        by (apply Z.mul_le_mono_nonneg_r; lia).
      assert (a * P <= (c - 1) * b * P) as Hm3
        by (apply Z.mul_le_mono_nonneg_r; lia).
      nia.
    + destruct (Z.le_gt_cases a (c * b)) as [|Hgt]; [assumption|].
      exfalso.
      assert (m * b <= c * P * b) as Hm2
        by (apply Z.mul_le_mono_nonneg_r; lia).
      assert ((c * b + 1) * P <= a * P) as Hm3
        by (apply Z.mul_le_mono_nonneg_r; lia).
      nia.
Qed.
End BinaryQuotient.

(** ** 3-hypermedia_del_pagination.py: [dataset] and [indexed_dataset] *)
Section DelPaginationFacts.
Import DelPagination.
Variable fs : FileSystem.

Lemma del_dataset_cached (self : Server) (rows : list Row) :
  _Server__dataset self = Some rows ->
  dataset fs self = (Return rows, self).
Proof. intros H. unfold dataset. run_method. now rewrite H. Qed.

Lemma del_dataset_load (self : Server) (file : list Row) :
  _Server__dataset self = None ->
  fs DATA_FILE = Readable file ->
  dataset fs self =
    (Return (py_slice file (Some 1) None),
     set_dataset (py_slice file (Some 1) None) self).
Proof. intros H Hfs. unfold dataset. run_method. now rewrite H, Hfs. Qed.

(** What [dataset] returns is what the attribute holds afterwards, and
    the index is not touched. *)
Lemma del_dataset_returns (self self' : Server) (rows : list Row) :
  dataset fs self = (Return rows, self') ->
  _Server__dataset self' = Some rows /\
  _Server__indexed_dataset self' = _Server__indexed_dataset self.
Proof.
  unfold dataset. run_method.
  destruct (_Server__dataset self) as [cached|] eqn:Hc.
  - intros [= <- <-]. now split.
  - destruct (fs DATA_FILE); [|discriminate]. intros [= <- <-]. now split.
Qed.

(** [dataset] returns exactly when the dataset is cached already or the
    data file can be read. *)
Lemma del_dataset_loads (self : Server) :
  (exists rows self', dataset fs self = (Return rows, self')) <->
  is_Some (_Server__dataset self) \/
  exists file, fs DATA_FILE = Readable file.
Proof.
  unfold dataset. run_method.
  destruct (_Server__dataset self) as [cached|].
  - split; [intros _; left; eauto|]. intros _. eauto.
  - destruct (fs DATA_FILE) as [file|].
    + split; [intros _; right; eauto|]. intros _. eauto.
    + split.
      * intros (rows & self' & Habs). discriminate.
      * intros [[x Habs]|[x Habs]]; discriminate.
Qed.

(** The comprehension over consecutive positions of [rows]: every
    position becomes a key bound to the row at that position, and the
    other keys keep what [acc] had. *)
Lemma dict_comprehension_seq (rows : list Row) (n start : nat)
    (acc : gmap Z Row) :
  (start + n <= length rows)%nat ->
  exists d,
    dict_comprehension rows (Z.of_nat <$> seq start n) acc = Return d /\
    forall k : Z,
      d !! k =
        if decide (Z.of_nat start <= k < Z.of_nat (start + n))
        then rows !! Z.to_nat k
        else acc !! k.
Proof.
  revert start acc. induction n as [|n IH]; intros start acc Hlen.
  - exists acc. split; [reflexivity|]. intros k.
    destruct (decide _); [lia|reflexivity].
  - destruct (lookup_lt_is_Some_2 rows start ltac:(lia)) as [row Hrow].
    destruct (IH (S start) (<[Z.of_nat start := row]> acc) ltac:(lia))
      as (d & Hd & Hlookup).
    exists d. split.
    + cbn [seq fmap list_fmap dict_comprehension].
      rewrite (py_getitem_lookup rows start row Hrow). exact Hd.
    + intros k. rewrite Hlookup.
      destruct (decide (Z.of_nat (S start) <= k < Z.of_nat (S start + n)));
        destruct (decide (Z.of_nat start <= k < Z.of_nat (start + S n)));
        try lia; try reflexivity.
      * assert (k = Z.of_nat start) as -> by lia.
        now rewrite lookup_insert_eq, Nat2Z.id.
      * apply lookup_insert_ne. lia.
Qed.

(** A call with the index already built gives it back as it is. *)
Lemma del_indexed_dataset_cached (self : Server) (d : gmap Z Row) :
  _Server__indexed_dataset self = Some d ->
  indexed_dataset fs self = (Return d, self).
Proof. intros H. unfold indexed_dataset. run_method. now rewrite H. Qed.

(** The first call builds the index from the first 1000 rows. *)
Lemma del_indexed_dataset_build (self self' : Server) (rows : list Row) :
  _Server__indexed_dataset self = None ->
  dataset fs self = (Return rows, self') ->
  exists d,
    indexed_dataset fs self = (Return d, set_indexed_dataset d self') /\
    forall k : Z,
      d !! k =
        if decide (0 <= k < Z.min (len rows) 1000)
        then rows !! Z.to_nat k
        else None.
Proof.
  intros Hnone Hds.
  set (truncated := py_slice rows None (Some 1000)).
  assert (truncated = take 1000 rows) as Htr
    by (apply py_slice_prefix; lia).
  destruct (dict_comprehension_seq truncated (length truncated) 0 ∅
              ltac:(lia)) as (d & Hd & Hlookup).
  exists d. split.
  - unfold indexed_dataset. cbv [bind getattr]. rewrite Hnone, Hds.
    fold truncated. unfold py_range, len. rewrite Nat2Z.id.
    run_method. now rewrite Hd.
  - intros k. rewrite Hlookup, lookup_empty.
    rewrite Htr, length_take. unfold len.
    destruct (decide (Z.of_nat 0 <= k < Z.of_nat (0 + 1000 `min` length rows)));
      destruct (decide (0 <= k < Z.min (Z.of_nat (length rows)) 1000));
      try lia; try reflexivity.
    apply lookup_take_lt. lia.
Qed.
End DelPaginationFacts.

(** ** Calling a method again and again *)

(** A method that returns [a] and leaves the instance as it is, whatever
    the file system, does so on every call of a sequence. *)
Lemma call_each_stable {S A} (method : FileSystem -> Method S A)
    (self : S) (a : A) (fss : list FileSystem) :
  (forall fs, method fs self = (Return a, self)) ->
  call_each method fss self = (replicate (length fss) (Return a), self).
Proof.
  intros Hstable. induction fss as [|fs fss IH]; [reflexivity|].
  cbn [call_each length replicate]. now rewrite Hstable, IH.
Qed.

(** ** Arguments outside the precondition *)

Lemma invalid_arguments_iff (page page_size : py_value) :
  invalid_arguments page page_size <->
  positive_int page && positive_int page_size = false.
Proof.
  unfold invalid_arguments.
  rewrite andb_false_iff, !positive_int_false. tauto.
Qed.

Lemma valid_arguments_iff (page page_size : py_value) :
  ~ invalid_arguments page page_size <->
  exists p ps,
    as_int page = Some p /\ as_int page_size = Some ps /\ 1 <= p /\ 1 <= ps.
Proof.
  rewrite invalid_arguments_iff, not_false_iff_true, andb_true_iff.
  rewrite !positive_int_spec. split.
  - intros [(p & Hp & Hp1) (ps & Hps & Hps1)]. exists p, ps. tauto.
  - intros (p & ps & Hp & Hps & Hp1 & Hps1). split; eauto.
Qed.

(** ** The ceiling of a quotient, as the specification words it *)

Lemma is_ceiling_unique (c c' n d : Z) :
  0 < d -> is_ceiling c n d -> is_ceiling c' n d -> c = c'.
Proof. unfold is_ceiling. intros Hd H H'. nia. Qed.

Lemma is_ceiling_div (n d : Z) :
  0 < d -> is_ceiling ((n + d - 1) / d) n d.
Proof.
  intros Hd. unfold is_ceiling.
  pose proof (Z.div_mod (n + d - 1) d ltac:(lia)).
  pose proof (Z.mod_pos_bound (n + d - 1) d Hd). nia.
Qed.

(** ** The model at work on small inputs *)

(** [1 / 3] is 0x1.5555555555555p-2, and its ceiling is 1. *)
Example int_true_divide_third :
  int_true_divide 1 3 = Return (Float 6004799503160661 (-54)) /\
  math_ceil (Float 6004799503160661 (-54)) = 1.
Proof. split; reflexivity. Qed.

(** [7 / 2] is exact, [-7 / 2] rounds up to -3, dividing by zero raises. *)
Example int_true_divide_halves :
  (math_ceil <$> [Float 7 (-1); Float (-7) (-1)] = [4; -3]) /\
  int_true_divide 7 0 = Raise ZeroDivisionError.
Proof. split; reflexivity. Qed.

(** The smallest positive binary64 number is 2^-1074; a quotient of
    exactly half of it is a tie and goes to the even neighbour, zero, and
    anything above the tie goes up. *)
Example int_true_divide_tiny :
  (math_ceil <$> [Float 1 (-1074); Float 0 (-1074)] = [1; 0]) /\
  int_true_divide 1 (2 ^ 1075) = Return (Float 0 (-1074)) /\
  int_true_divide 1 (2 ^ 1075 - 1) = Return (Float 1 (-1074)).
Proof. split; [reflexivity|]. split; vm_compute; reflexivity. Qed.

(** Slices clamp, subscripts do not. *)
Example py_slice_examples :
  py_slice [1; 2; 3; 4; 5] (Some 1) None = [2; 3; 4; 5] /\
  py_slice [1; 2; 3; 4; 5] (Some 3) (Some 10) = [4; 5] /\
  py_slice [1; 2; 3; 4; 5] (Some (-2)) None = [4; 5] /\
  py_slice [1; 2; 3; 4; 5] (Some 7) (Some 9) = [] /\
  py_getitem [1; 2; 3; 4; 5] (-1) = Return 5 /\
  py_getitem [1; 2; 3; 4; 5] 5 = Raise IndexError.
Proof. repeat split. Qed.

(** With no data file, a call with valid arguments fails in [open], not
    in an assertion; an instance that has loaded its dataset no longer
    needs the file. *)
Example get_hyper_missing_file :
  HypermediaPagination.get_hyper (disk None) (PyInt 1) (PyInt 10)
    HypermediaPagination.__init__
  = (Raise FileNotFoundError, HypermediaPagination.__init__) /\
  exists d self',
    HypermediaPagination.get_hyper (disk None) (PyInt 1) (PyInt 10)
      {| HypermediaPagination._Server__dataset := Some [record_A] |}
    = (Return d, self') /\
    Page.data d = [record_A] /\ Page.total_pages d = 1.
Proof.
  split; [reflexivity|]. eexists. eexists.
  split; [vm_compute; reflexivity|]. split; reflexivity.
Qed.

(** [True] is an integer for [isinstance], worth 1. *)
Example get_page_bool :
  SimplePagination.get_page (disk (Some four_records))
    (PyBool true) (PyBool true) SimplePagination.__init__
  = (Return [record_A],
     {| SimplePagination._Server__dataset :=
          Some [record_A; record_B; record_C; record_D] |}) /\
  SimplePagination.get_page (disk (Some four_records))
    (PyBool false) (PyInt 10) SimplePagination.__init__
  = (Raise AssertionError, SimplePagination.__init__) /\
  SimplePagination.get_page (disk (Some four_records))
    (PyFloat (Float 1 0)) (PyInt 10) SimplePagination.__init__
  = (Raise AssertionError, SimplePagination.__init__).
Proof. repeat split. Qed.

(** * The claims *)

(** ** Loading the dataset once *)

(** C8. Once a call to [dataset()] has returned, the sequence it returned
    is the one the instance holds in its cache, and every later call, made
    with the data file changed or removed or left as it was, returns that
    same sequence and leaves the instance as it is: the file is read at
    most once.  This holds for the [Server] of 1-simple_pagination.py and
    for the one of 3-hypermedia_del_pagination.py. *)
Theorem dataset_idempotent :
  (forall fs self rows self',
      SimplePagination.dataset fs self = (Return rows, self') ->
      SimplePagination._Server__dataset self' = Some rows /\
      (forall fs', SimplePagination.dataset fs' self' = (Return rows, self')) /\
      forall fss,
        call_each SimplePagination.dataset fss self' =
          (replicate (length fss) (Return rows), self'))
  /\
  (forall fs self rows self',
      DelPagination.dataset fs self = (Return rows, self') ->
      DelPagination._Server__dataset self' = Some rows /\
      (forall fs', DelPagination.dataset fs' self' = (Return rows, self')) /\
      forall fss,
        call_each DelPagination.dataset fss self' =
          (replicate (length fss) (Return rows), self')).
Proof.
  split; intros fs self rows self' Hfirst.
  - pose proof (simple_dataset_returns fs self self' rows Hfirst) as Hcache.
    assert (forall fs',
               SimplePagination.dataset fs' self' = (Return rows, self'))
      as Hagain by (intros fs'; now apply simple_dataset_cached).
    split; [exact Hcache|]. split; [exact Hagain|].
    intros fss. now apply call_each_stable.
  - destruct (del_dataset_returns fs self self' rows Hfirst) as [Hcache _].
    assert (forall fs',
               DelPagination.dataset fs' self' = (Return rows, self'))
      as Hagain by (intros fs'; now apply del_dataset_cached).
    split; [exact Hcache|]. split; [exact Hagain|].
    intros fss. now apply call_each_stable.
Qed.

(** The first call reads four records; the file is then replaced by the
    fifty-record one and finally removed, and both later calls still
    return the four records first read. *)
Lemma dataset_idempotent_witness :
  let rows := [record_A; record_B; record_C; record_D] in
  let self' := {| SimplePagination._Server__dataset := Some rows |} in
  SimplePagination.dataset (disk (Some four_records))
    SimplePagination.__init__ = (Return rows, self') /\
  call_each SimplePagination.dataset
    [disk (Some fifty_records); disk None] self'
  = ([Return rows; Return rows], self').
Proof.
  intros rows self'.
  assert (SimplePagination.dataset (disk (Some four_records))
            SimplePagination.__init__ = (Return rows, self')) as Hfirst
    by reflexivity.
  split; [exact Hfirst|].
  exact (proj2 (proj2 (proj1 dataset_idempotent _ _ _ _ Hfirst))
           [disk (Some fifty_records); disk None]).
Defined.

(** ** The index of the first 1000 records *)

(** C9. On an instance whose index is not built yet and whose dataset
    loads as [rows], [indexed_dataset()] returns a mapping whose keys are
    exactly the positions 0 .. min(len(rows), 1000) - 1, each bound to the
    record at that position of the dataset; the mapping is stored on the
    instance, and every later call returns it again, whatever the file
    holds by then, without changing the instance. *)
Theorem indexed_dataset_first_1000 :
  forall fs self rows self',
    DelPagination._Server__indexed_dataset self = None ->
    DelPagination.dataset fs self = (Return rows, self') ->
    exists d self'',
      DelPagination.indexed_dataset fs self = (Return d, self'') /\
      DelPagination._Server__indexed_dataset self'' = Some d /\
      (forall k : Z, is_Some (d !! k) <-> 0 <= k < Z.min (len rows) 1000) /\
      (forall k : Z,
          0 <= k < Z.min (len rows) 1000 -> d !! k = rows !! Z.to_nat k) /\
      forall fss,
        call_each DelPagination.indexed_dataset fss self'' =
          (replicate (length fss) (Return d), self'').
Proof.
  intros fs self rows self' Hnone Hds.
  destruct (del_indexed_dataset_build fs self self' rows Hnone Hds)
    as (d & Hbuild & Hlookup).
  exists d, (DelPagination.set_indexed_dataset d self').
  split; [exact Hbuild|]. split; [reflexivity|]. split; [|split].
  - intros k. rewrite Hlookup. destruct (decide _) as [Hin|Hout].
    + split; [tauto|]. intros _. apply lookup_lt_is_Some. unfold len in Hin. lia.
    + split; [|tauto]. intros [x Hx]. discriminate.
  - intros k Hk. rewrite Hlookup. now destruct (decide _).
  - intros fss. apply call_each_stable.
    intros fs'. now apply del_indexed_dataset_cached.
Qed.

(** Four records on disk: the index has the keys 0 to 3, and a later call
    with the file removed returns the same index. *)
Lemma indexed_dataset_first_1000_witness :
  exists d self'',
    DelPagination.indexed_dataset (disk (Some four_records))
      DelPagination.__init__ = (Return d, self'') /\
    d !! 0 = Some record_A /\ d !! 3 = Some record_D /\ d !! 4 = None /\
    DelPagination.indexed_dataset (disk None) self'' = (Return d, self'').
Proof.
  set (rows := [record_A; record_B; record_C; record_D]).
  assert (DelPagination.dataset (disk (Some four_records))
            DelPagination.__init__
          = (Return rows, DelPagination.set_dataset rows
                            DelPagination.__init__)) as Hds
    by reflexivity.
  destruct (indexed_dataset_first_1000 (disk (Some four_records))
              DelPagination.__init__ rows _ eq_refl Hds)
    as (d & self'' & Hcall & _ & Hdom & Hval & Hlater).
  exists d, self''. split; [exact Hcall|].
  assert (Z.min (len rows) 1000 = 4) as Hmin by reflexivity.
  rewrite Hmin in Hdom, Hval.
  split; [exact (Hval 0 ltac:(lia))|].
  split; [exact (Hval 3 ltac:(lia))|].
  split.
  - destruct (d !! 4) as [x|] eqn:Hx; [|reflexivity].
    destruct (proj1 (Hdom 4) (ex_intro _ x Hx)). lia.
  - specialize (Hlater [disk None]). cbn [call_each length replicate] in Hlater.
    destruct (DelPagination.indexed_dataset (disk None) self'') as [r s].
    now injection Hlater as -> ->.
Defined.

(** ** [get_page] *)

(** C6. [get_page(page, page_size)], in 1-simple_pagination.py and in
    2-hypermedia_pagination.py alike: when [page] or [page_size] is not an
    integer or is below 1, the call raises [AssertionError] at once,
    returning nothing and leaving the instance untouched; when both are
    integers of at least 1, it does not raise [AssertionError], and it
    returns a page whenever the dataset loads. *)
Theorem get_page_precondition :
  forall fs page page_size
         (s1 : SimplePagination.Server) (s2 : HypermediaPagination.Server),
    (invalid_arguments page page_size ->
     SimplePagination.get_page fs page page_size s1
       = (Raise AssertionError, s1) /\
     HypermediaPagination.get_page fs page page_size s2
       = (Raise AssertionError, s2))
    /\
    (forall p ps,
        as_int page = Some p -> as_int page_size = Some ps ->
        1 <= p -> 1 <= ps ->
        (SimplePagination.get_page fs page page_size s1).1
          <> Raise AssertionError /\
        (HypermediaPagination.get_page fs page page_size s2).1
          <> Raise AssertionError /\
        (forall rows s1',
            SimplePagination.dataset fs s1 = (Return rows, s1') ->
            exists data,
              SimplePagination.get_page fs page page_size s1
                = (Return data, s1')) /\
        (forall rows s2',
            HypermediaPagination.dataset fs s2 = (Return rows, s2') ->
            exists data,
              HypermediaPagination.get_page fs page page_size s2
                = (Return data, s2'))).
Proof.
  intros fs page page_size s1 s2. split.
  - intros Hbad%invalid_arguments_iff. split.
    + now apply simple_get_page_invalid.
    + now apply hyper_get_page_invalid.
  - intros p ps Hp Hps Hp1 Hps1.
    rewrite (simple_get_page_valid fs page page_size p ps s1 Hp Hps Hp1 Hps1).
    rewrite (hyper_get_page_valid fs page page_size p ps s2 Hp Hps Hp1 Hps1).
    split; [|split; [|split]].
    + pose proof (simple_dataset_no_assertion fs s1) as Hna.
      destruct (SimplePagination.dataset fs s1) as [[rows|e] s1'];
        [discriminate|exact Hna].
    + pose proof (hyper_dataset_no_assertion fs s2) as Hna.
      destruct (HypermediaPagination.dataset fs s2) as [[rows|e] s2'];
        [discriminate|exact Hna].
    + intros rows s1' ->. eexists. reflexivity.
    + intros rows s2' ->. eexists. reflexivity.
Qed.

(** A string for [page_size] and a zero for [page] are both refused; page
    1 of size 2 on a four-record file is served. *)
Lemma get_page_precondition_witness :
  SimplePagination.get_page (disk (Some four_records))
    (PyInt 1) (PyStr "10") SimplePagination.__init__
  = (Raise AssertionError, SimplePagination.__init__) /\
  HypermediaPagination.get_page (disk (Some four_records))
    (PyInt 0) (PyInt 10) HypermediaPagination.__init__
  = (Raise AssertionError, HypermediaPagination.__init__) /\
  exists data s1',
    SimplePagination.get_page (disk (Some four_records))
      (PyInt 1) (PyInt 2) SimplePagination.__init__ = (Return data, s1').
Proof.
  split; [|split].
  - refine (proj1 (proj1 (get_page_precondition (disk (Some four_records))
                            (PyInt 1) (PyStr "10") SimplePagination.__init__
                            HypermediaPagination.__init__) _)).
    right. left. reflexivity.
  - refine (proj2 (proj1 (get_page_precondition (disk (Some four_records))
                            (PyInt 0) (PyInt 10) SimplePagination.__init__
                            HypermediaPagination.__init__) _)).
    right. right. left. exists 0. split; [reflexivity|lia].
  - destruct (proj2 (get_page_precondition (disk (Some four_records))
                       (PyInt 1) (PyInt 2) SimplePagination.__init__
                       HypermediaPagination.__init__)
                1 2 eq_refl eq_refl ltac:(lia) ltac:(lia))
      as (_ & _ & Hreturns & _).
    destruct (Hreturns [record_A; record_B; record_C; record_D]
                {| SimplePagination._Server__dataset :=
                     Some [record_A; record_B; record_C; record_D] |}
                eq_refl) as [data Hdata].
    exists data. eexists. exact Hdata.
Defined.

(** C7. For integers [page >= 1] and [page_size >= 1], on a dataset that
    loads as [rows], [get_page(page, page_size)] returns the slice
    [rows[start:end]] with [(start, end) = index_range(page, page_size)
    = ((page - 1) * page_size, page * page_size)]: element [i] of the page
    is element [start + i] of the dataset for [i < page_size], and there
    is nothing further.  When [start] is at or beyond the end of the
    dataset the page is empty, and no exception is raised. *)
Theorem get_page_slice :
  forall fs page page_size p ps self rows self',
    as_int page = Some p -> as_int page_size = Some ps ->
    1 <= p -> 1 <= ps ->
    SimplePagination.dataset fs self = (Return rows, self') ->
    let start := (p - 1) * ps in
    let end_ := p * ps in
    SimpleHelper.index_range p ps = (start, end_) /\
    SimplePagination.index_range p ps = (start, end_) /\
    exists data,
      SimplePagination.get_page fs page page_size self
        = (Return data, self') /\
      data = py_slice rows (Some start) (Some end_) /\
      (forall i : nat,
          data !! i =
            if Z.of_nat i <? ps then rows !! (Z.to_nat start + i)%nat
            else None) /\
      (len rows <= start -> data = []).
Proof.
  intros fs page page_size p ps self rows self' Hp Hps Hp1 Hps1 Hds
         start end_.
  split; [reflexivity|]. split; [reflexivity|].
  exists (py_slice rows (Some start) (Some end_)).
  split; [|split; [reflexivity|split]].
  - rewrite (simple_get_page_valid fs page page_size p ps self
               Hp Hps Hp1 Hps1).
    now rewrite Hds.
  - intros i. rewrite py_slice_lookup by (subst start end_; nia).
    replace (end_ - start) with ps by (subst start end_; lia).
    reflexivity.
  - intros Hlen. now apply py_slice_beyond.
Qed.

(** [get_page(1000, 10)] on the fifty-record file: an empty page. *)
Lemma get_page_slice_witness :
  exists self',
    SimplePagination.get_page (disk (Some fifty_records))
      (PyInt 1000) (PyInt 10) SimplePagination.__init__ = (Return [], self').
Proof.
  set (rows := replicate 50 record_A).
  exists {| SimplePagination._Server__dataset := Some rows |}.
  destruct (get_page_slice (disk (Some fifty_records))
              (PyInt 1000) (PyInt 10) 1000 10
              SimplePagination.__init__ rows
              {| SimplePagination._Server__dataset := Some rows |}
              eq_refl eq_refl ltac:(lia) ltac:(lia) eq_refl)
    as (_ & _ & data & Hcall & _ & _ & Hempty).
  rewrite Hcall. f_equal. f_equal. apply Hempty.
  vm_compute. discriminate.
Defined.

(** ** [get_hyper] *)

(** C10. [get_hyper(page, page_size)] raises [AssertionError] exactly when
    [page] or [page_size] is not an integer or is below 1, which is exactly
    when [get_page] raises it on the same arguments, and it then leaves
    the instance untouched.  For integers of at least 1 it returns a
    dictionary whenever the dataset loads, however far [page] lies beyond
    the last page. *)
Theorem get_hyper_precondition :
  forall fs page page_size (self : HypermediaPagination.Server),
    ((HypermediaPagination.get_hyper fs page page_size self).1
       = Raise AssertionError
     <-> invalid_arguments page page_size) /\
    ((HypermediaPagination.get_hyper fs page page_size self).1
       = Raise AssertionError
     <-> (HypermediaPagination.get_page fs page page_size self).1
           = Raise AssertionError) /\
    (invalid_arguments page page_size ->
     HypermediaPagination.get_hyper fs page page_size self
       = (Raise AssertionError, self)) /\
    (forall p ps rows self',
        as_int page = Some p -> as_int page_size = Some ps ->
        1 <= p -> 1 <= ps ->
        HypermediaPagination.dataset fs self = (Return rows, self') ->
        exists d,
          HypermediaPagination.get_hyper fs page page_size self
            = (Return d, self')).
Proof.
  intros fs page page_size self.
  assert (invalid_arguments page page_size ->
          HypermediaPagination.get_hyper fs page page_size self
            = (Raise AssertionError, self)) as Hinvalid.
  { intros Hbad%invalid_arguments_iff.
    apply hyper_get_hyper_raises. now apply hyper_get_page_invalid. }
  assert (~ invalid_arguments page page_size ->
          (HypermediaPagination.get_hyper fs page page_size self).1
            <> Raise AssertionError /\
          (HypermediaPagination.get_page fs page page_size self).1
            <> Raise AssertionError) as Hvalid.
  { intros (p & ps & Hp & Hps & Hp1 & Hps1)%valid_arguments_iff.
    pose proof (hyper_get_page_valid fs page page_size p ps self
                  Hp Hps Hp1 Hps1) as Hpage.
    pose proof (hyper_dataset_no_assertion fs self) as Hna.
    destruct (HypermediaPagination.dataset fs self) as [[rows|e] self'] eqn:Hds.
    - destruct (hyper_get_hyper_valid fs page page_size p ps self self' rows
                  Hp Hps Hp1 Hps1 Hds) as (q & _ & ->).
      rewrite Hpage. split; discriminate.
    - rewrite (hyper_get_hyper_raises fs page page_size self self' e Hpage).
      rewrite Hpage. cbn [fst] in *.
      assert (e <> AssertionError) as He by congruence.
      split; congruence. }
  destruct (decide (positive_int page && positive_int page_size = false))
    as [Hbad%invalid_arguments_iff|Hgood].
  - pose proof (Hinvalid Hbad) as Hh.
    assert (HypermediaPagination.get_page fs page page_size self
            = (Raise AssertionError, self)) as Hg
      by (apply hyper_get_page_invalid; now apply invalid_arguments_iff).
    rewrite Hh, Hg. split; [tauto|]. split; [tauto|].
    split; [reflexivity|].
    intros p ps rows self' Hp Hps Hp1 Hps1 _. exfalso.
    apply (proj2 (valid_arguments_iff page page_size)); [|exact Hbad].
    exists p, ps. tauto.
  - assert (~ invalid_arguments page page_size) as Hok
      by (now rewrite invalid_arguments_iff).
    destruct (Hvalid Hok) as [Hh Hg].
    split; [tauto|]. split; [tauto|]. split; [tauto|].
    intros p ps rows self' Hp Hps Hp1 Hps1 Hds.
    destruct (hyper_get_hyper_valid fs page page_size p ps self self' rows
                Hp Hps Hp1 Hps1 Hds) as (q & _ & ->).
    eexists. reflexivity.
Qed.

(** Page 1000 of size 10 on the fifty-record file is served; a [None] for
    [page] is refused. *)
Lemma get_hyper_precondition_witness :
  (exists d self',
      HypermediaPagination.get_hyper (disk (Some fifty_records))
        (PyInt 1000) (PyInt 10) HypermediaPagination.__init__
      = (Return d, self')) /\
  HypermediaPagination.get_hyper (disk (Some fifty_records))
    PyNone (PyInt 10) HypermediaPagination.__init__
  = (Raise AssertionError, HypermediaPagination.__init__).
Proof.
  split.
  - set (rows := replicate 50 record_A).
    destruct (proj2 (proj2 (proj2
                (get_hyper_precondition (disk (Some fifty_records))
                   (PyInt 1000) (PyInt 10) HypermediaPagination.__init__)))
                1000 10 rows
                {| HypermediaPagination._Server__dataset := Some rows |}
                eq_refl eq_refl ltac:(lia) ltac:(lia) eq_refl) as [d Hd].
    exists d. eexists. exact Hd.
  - apply (proj1 (proj2 (proj2
              (get_hyper_precondition (disk (Some fifty_records))
                 PyNone (PyInt 10) HypermediaPagination.__init__)))).
    left. reflexivity.
Defined.

(** C4. For integers [page >= 1] and [page_size >= 1], on a dataset that
    loads, the [page_size] entry of the dictionary [get_hyper] returns is
    the length of its [data] entry, and is at most the [page_size] asked
    for. *)
Theorem get_hyper_page_size :
  forall fs page page_size p ps self rows self',
    as_int page = Some p -> as_int page_size = Some ps ->
    1 <= p -> 1 <= ps ->
    HypermediaPagination.dataset fs self = (Return rows, self') ->
    exists d,
      HypermediaPagination.get_hyper fs page page_size self
        = (Return d, self') /\
      Page.page_size d = len (Page.data d) /\
      0 <= Page.page_size d <= ps.
Proof.
  intros fs page page_size p ps self rows self' Hp Hps Hp1 Hps1 Hds.
  destruct (hyper_get_hyper_valid fs page page_size p ps self self' rows
              Hp Hps Hp1 Hps1 Hds) as (q & _ & Hcall).
  eexists. split; [exact Hcall|]. cbn [Page.page_size Page.data].
  split; [reflexivity|]. split; [apply len_nonneg|].
  etransitivity; [apply py_slice_length; nia|]. lia.
Qed.

(** The last page of a four-record dataset cut in pages of three holds a
    single record. *)
Lemma get_hyper_page_size_witness :
  exists d self',
    HypermediaPagination.get_hyper (disk (Some four_records))
      (PyInt 2) (PyInt 3) HypermediaPagination.__init__ = (Return d, self') /\
    Page.page_size d = len (Page.data d) /\
    0 <= Page.page_size d <= 3.
Proof.
  set (rows := [record_A; record_B; record_C; record_D]).
  destruct (get_hyper_page_size (disk (Some four_records))
              (PyInt 2) (PyInt 3) 2 3 HypermediaPagination.__init__ rows
              {| HypermediaPagination._Server__dataset := Some rows |}
              eq_refl eq_refl ltac:(lia) ltac:(lia) eq_refl)
    as (d & Hcall & Hlen & Hle).
  exists d. eexists. split; [exact Hcall|]. split; assumption.
Defined.

(** C3, as the code has it.  For integers [page >= 1] and
    [page_size >= 1], on a dataset that loads, the dictionary [get_hyper]
    returns has [next_page] equal to [None] exactly when [page] is at or
    beyond [total_pages] (and equal to [page + 1] otherwise), and
    [prev_page] equal to [None] exactly when [page] is 1 (and equal to
    [page - 1] otherwise). *)
Theorem get_hyper_next_prev :
  forall fs page page_size p ps self rows self',
    as_int page = Some p -> as_int page_size = Some ps ->
    1 <= p -> 1 <= ps ->
    HypermediaPagination.dataset fs self = (Return rows, self') ->
    exists d,
      HypermediaPagination.get_hyper fs page page_size self
        = (Return d, self') /\
      (Page.next_page d = None <-> Page.total_pages d <= p) /\
      (Page.next_page d <> None -> Page.next_page d = Some (p + 1)) /\
      (Page.prev_page d = None <-> p = 1) /\
      (Page.prev_page d <> None -> Page.prev_page d = Some (p - 1)).
Proof.
  intros fs page page_size p ps self rows self' Hp Hps Hp1 Hps1 Hds.
  destruct (hyper_get_hyper_valid fs page page_size p ps self self' rows
              Hp Hps Hp1 Hps1 Hds) as (q & _ & Hcall).
  eexists. split; [exact Hcall|].
  cbn [Page.next_page Page.prev_page Page.total_pages].
  rewrite Z.gtb_ltb.
  destruct (Z.leb_spec (p + 1) (math_ceil q));
    destruct (Z.ltb_spec 0 (p - 1));
    repeat split; intros; try congruence; try lia.
Qed.

Lemma get_hyper_next_prev_witness :
  exists d self',
    HypermediaPagination.get_hyper (disk (Some four_records))
      (PyInt 2) (PyInt 10) HypermediaPagination.__init__ = (Return d, self') /\
    (Page.next_page d = None <-> Page.total_pages d <= 2) /\
    (Page.prev_page d = None <-> 2 = 1).
Proof.
  set (rows := [record_A; record_B; record_C; record_D]).
  destruct (get_hyper_next_prev (disk (Some four_records))
              (PyInt 2) (PyInt 10) 2 10 HypermediaPagination.__init__ rows
              {| HypermediaPagination._Server__dataset := Some rows |}
              eq_refl eq_refl ltac:(lia) ltac:(lia) eq_refl)
    as (d & Hcall & Hnext & _ & Hprev & _).
  exists d. eexists. split; [exact Hcall|]. split; assumption.
Defined.

(** C3, as the specification words it, fails on a page beyond the last
    one: page 2 of size 10 on four records has [next_page = None] although
    [total_pages] is 1, not 2. *)
Lemma get_hyper_next_page_beyond_last :
  exists d self',
    HypermediaPagination.get_hyper (disk (Some four_records))
      (PyInt 2) (PyInt 10) HypermediaPagination.__init__ = (Return d, self') /\
    Page.total_pages d = 1 /\
    ~ (Page.next_page d = None <-> 2 = Page.total_pages d).
Proof.
  eexists. eexists. split; [vm_compute; reflexivity|].
  cbn [Page.next_page Page.total_pages].
  split; [reflexivity|]. intros [Habs _]. specialize (Habs eq_refl).
  discriminate.
Qed.

(** Where the code does count the pages right.  For integers [page >= 1]
    and [1 <= page_size < 2^1075], on a dataset that loads with fewer than
    2^53 records, the dictionary [get_hyper] returns has [data] equal to
    what [get_page(page, page_size)] returns and [total_pages] equal to the
    ceiling of [len(dataset) / page_size]. *)
Theorem get_hyper_data_total_pages :
  forall fs page page_size p ps self rows self',
    as_int page = Some p -> as_int page_size = Some ps ->
    1 <= p -> 1 <= ps < 2 ^ 1075 ->
    HypermediaPagination.dataset fs self = (Return rows, self') ->
    len rows < 2 ^ 53 ->
    exists d,
      HypermediaPagination.get_hyper fs page page_size self
        = (Return d, self') /\
      HypermediaPagination.get_page fs page page_size self
        = (Return (Page.data d), self') /\
      is_ceiling (Page.total_pages d) (len rows) ps.
Proof.
  intros fs page page_size p ps self rows self' Hp Hps Hp1 Hps1 Hds Hlen.
  destruct (hyper_get_hyper_valid fs page page_size p ps self self' rows
              Hp Hps Hp1 ltac:(lia) Hds) as (q & Hq & Hcall).
  eexists. split; [exact Hcall|].
  cbn [Page.data Page.total_pages]. split.
  - rewrite (hyper_get_page_valid fs page page_size p ps self
               Hp Hps Hp1 ltac:(lia)).
    now rewrite Hds.
  - pose proof (len_nonneg rows) as Hnn.
    destruct (math_ceil_int_true_divide (len rows) ps ltac:(lia) Hps1)
      as (q' & Hq' & Hceil).
    rewrite Hq in Hq'. injection Hq' as <-. exact Hceil.
Qed.

(** Four records in pages of three: two pages. *)
Lemma get_hyper_data_total_pages_witness :
  exists d self',
    HypermediaPagination.get_hyper (disk (Some four_records))
      (PyInt 2) (PyInt 3) HypermediaPagination.__init__ = (Return d, self') /\
    HypermediaPagination.get_page (disk (Some four_records))
      (PyInt 2) (PyInt 3) HypermediaPagination.__init__
      = (Return (Page.data d), self') /\
    Page.total_pages d = 2.
Proof.
  set (rows := [record_A; record_B; record_C; record_D]).
  assert (2 ^ 53 = 9007199254740992) as H53 by reflexivity.
  assert (3 < 2 ^ 1075) as Hsmall
    by (apply (Z.lt_le_trans _ (2 ^ 2));
        [reflexivity|apply Z.pow_le_mono_r; lia]).
  destruct (get_hyper_data_total_pages (disk (Some four_records))
              (PyInt 2) (PyInt 3) 2 3 HypermediaPagination.__init__ rows
              {| HypermediaPagination._Server__dataset := Some rows |}
              eq_refl eq_refl ltac:(lia) ltac:(lia) eq_refl
              ltac:(rewrite H53; reflexivity))
    as (d & Hcall & Hpage & Hceil).
  exists d. eexists. split; [exact Hcall|]. split; [exact Hpage|].
  apply (is_ceiling_unique _ 2 (len rows) 3); [lia|exact Hceil|].
  unfold is_ceiling. split; reflexivity || discriminate.
Defined.

(** C5, on the code.  [get_hyper(1, 2**1100)] on four records returns all
    four records in [data] and yet a [total_pages] of 0: the binary64 value
    of [4 / page_size] underflows to 0.0 and [math.ceil] of it is 0, while
    the ceiling of the quotient, the total number of pages, is 1. *)
Lemma get_hyper_total_pages_underflow :
  exists d self',
    HypermediaPagination.get_hyper (disk (Some four_records))
      (PyInt 1) (PyInt (2 ^ 1100)) HypermediaPagination.__init__
      = (Return d, self') /\
    Page.data d = [record_A; record_B; record_C; record_D] /\
    Page.total_pages d = 0 /\
    is_ceiling 1 (len (Page.data d)) (2 ^ 1100) /\
    ~ is_ceiling (Page.total_pages d) (len (Page.data d)) (2 ^ 1100).
Proof.
  eexists. eexists. split; [vm_compute; reflexivity|].
  cbn [Page.data Page.total_pages].
  split; [reflexivity|]. split; [reflexivity|].
  unfold is_ceiling. change (len _) with 4.
  assert (0 < 2 ^ 1100) as Hpos by (apply Z.pow_pos_nonneg; lia).
  assert (2 ^ 3 <= 2 ^ 1100) as Hbig by (apply Z.pow_le_mono_r; lia).
  change (2 ^ 3) with 8 in Hbig.
  split; lia.
Qed.

(** ** [get_hyper_index] *)

(** C1, on the code.  The index is built from four records A, B, C, D and
    key 1 is deleted, leaving {0: A, 2: C, 3: D}; [get_hyper_index(0, 2)]
    then returns [None], not a dictionary whose [data] is [A, C]. *)
Theorem get_hyper_index_deleted_key :
  exists d self,
    DelPagination.indexed_dataset (disk (Some four_records))
      DelPagination.__init__ = (Return d, self) /\
    DelPagination._Server__indexed_dataset (delete_key 1 self)
      = Some {[ 0 := record_A; 2 := record_C; 3 := record_D ]} /\
    DelPagination.get_hyper_index (PyInt 0) (PyInt 2) (delete_key 1 self)
      = (Return None, delete_key 1 self) /\
    forall descriptor,
      IndexPage.data descriptor = [record_A; record_C] ->
      (DelPagination.get_hyper_index (PyInt 0) (PyInt 2)
         (delete_key 1 self)).1 <> Return (Some descriptor).
Proof.
  eexists. eexists. split; [vm_compute; reflexivity|].
  split; [vm_compute; reflexivity|]. split; [reflexivity|].
  intros descriptor _. discriminate.
Qed.

(** C2, on the code.  With the index of four records built, its key
    domain has size 4; [get_hyper_index(4, 10)] returns [None] and raises
    nothing, and so does every other call. *)
Theorem get_hyper_index_out_of_domain :
  (exists d self,
      DelPagination.indexed_dataset (disk (Some four_records))
        DelPagination.__init__ = (Return d, self) /\
      size d = 4%nat /\
      DelPagination.get_hyper_index (PyInt 4) (PyInt 10) self
        = (Return None, self)) /\
  forall index page_size self,
    DelPagination.get_hyper_index index page_size self = (Return None, self).
Proof.
  split; [|reflexivity].
  eexists. eexists. split; [vm_compute; reflexivity|].
  split; [vm_compute; reflexivity|reflexivity].
Qed.

(** * Further properties of the code *)

(** ** Slices, once more *)

Lemma py_slice_take_drop {A} (l : list A) (start stop : Z) :
  0 <= start ->
  start <= stop ->
  py_slice l (Some start) (Some stop) =
    take (Z.to_nat (stop - start)) (drop (Z.to_nat start) l).
Proof.
  intros Hstart Hstop. apply list_eq. intros i.
  rewrite py_slice_lookup by lia.
  rewrite lookup_take, lookup_drop.
  destruct (Z.ltb_spec (Z.of_nat i) (stop - start));
    destruct (decide (i < Z.to_nat (stop - start))%nat); try lia; reflexivity.
Qed.

Lemma py_slice_from {A} (l : list A) (start : Z) :
  0 <= start ->
  py_slice l (Some start) None = drop (Z.to_nat start) l.
Proof.
  intros Hstart. unfold py_slice, slice_bound.
  destruct (Z.ltb_spec start 0) as [|_]; [lia|]. unfold len.
  destruct (Z.min_spec start (Z.of_nat (length l))) as [[? ->]|[? ->]].
  - apply take_ge. rewrite length_drop. lia.
  - rewrite !drop_ge by lia. apply take_nil.
Qed.

Lemma page_slice {A} (l : list A) (p ps : Z) :
  1 <= p ->
  1 <= ps ->
  py_slice l (Some ((p - 1) * ps)) (Some (p * ps)) =
    take (Z.to_nat ps) (drop (Z.to_nat (p - 1) * Z.to_nat ps) l).
Proof.
  intros Hp Hps. rewrite py_slice_take_drop by nia.
  f_equal; [f_equal; lia|]. f_equal. nia.
Qed.

Lemma page_slice_length {A} (l : list A) (p ps : Z) :
  1 <= p ->
  1 <= ps ->
  len (py_slice l (Some ((p - 1) * ps)) (Some (p * ps))) =
    Z.max 0 (Z.min ps (len l - (p - 1) * ps)).
Proof.
  intros Hp Hps. rewrite py_slice_take_drop by nia.
  replace (p * ps - (p - 1) * ps) with ps by lia.
  assert (0 <= (p - 1) * ps) as Hstart by nia.
  unfold len. rewrite length_take, length_drop. lia.
Qed.

Lemma len_zero_iff_nil {A} (l : list A) : len l = 0 <-> l = [].
Proof. unfold len. rewrite <- length_zero_iff_nil. lia. Qed.

(** ** 1-simple_pagination.py, continued *)
Section SimplePaginationPages.
Import SimplePagination.
Variable fs : FileSystem.

(** On an instance that holds its dataset, any run of consecutive pages
    is served from the cache, and the pages laid end to end are the
    corresponding stretch of the dataset. *)
Lemma simple_pages_cached (page_size : py_value) (ps : Z) (self : Server)
    (rows : list Row) (n first : nat) :
  as_int page_size = Some ps ->
  1 <= ps ->
  _Server__dataset self = Some rows ->
  exists pages,
    for_each (fun page => get_page fs page page_size)
      ((fun i => PyInt (Z.of_nat i)) <$> seq (S first) n) self
    = (Return pages, self) /\
    concat pages =
      take (n * Z.to_nat ps) (drop (first * Z.to_nat ps) rows) /\
    length pages = n.
Proof.
  intros Hps Hps1 Hcache. revert first.
  induction n as [|n IH]; intros first.
  - exists []. repeat split.
  - destruct (IH (S first)) as (pages & Hrest & Hconcat & Hlen).
    exists (py_slice rows (Some ((Z.of_nat (S first) - 1) * ps))
              (Some (Z.of_nat (S first) * ps)) :: pages).
    split; [|split].
    + cbn [seq fmap list_fmap for_each]. cbv [bind].
      rewrite (simple_get_page_valid fs (PyInt (Z.of_nat (S first)))
                 page_size (Z.of_nat (S first)) ps
                 self eq_refl Hps ltac:(lia) Hps1).
      rewrite (simple_dataset_cached fs self rows Hcache).
      fold (@fmap list _ nat py_value). rewrite Hrest. reflexivity.
    + cbn [concat]. rewrite Hconcat, page_slice by lia.
      replace (Z.to_nat (Z.of_nat (S first) - 1)) with first by lia.
      replace (S first * Z.to_nat ps)%nat
        with (first * Z.to_nat ps + Z.to_nat ps)%nat by lia.
      now rewrite <- drop_drop, take_take_drop.
    + cbn [length]. now rewrite Hlen.
Qed.
End SimplePaginationPages.

(** X1. With a [page_size] of at least 1 and a dataset that loads,
    asking for the pages 1, 2, ..., k in turn gives k pages which, laid end
    to end, are the first [k * page_size] records of the dataset in order:
    no record is skipped or served twice, and once [k * page_size] reaches
    the length of the dataset the pages are the whole dataset. *)
Theorem get_page_pages_cover :
  forall fs page_size ps (self self' : SimplePagination.Server)
         (rows : list Row) (k : nat),
    as_int page_size = Some ps ->
    1 <= ps ->
    SimplePagination.dataset fs self = (Return rows, self') ->
    exists pages,
      (for_each (fun page => SimplePagination.get_page fs page page_size)
         (page_numbers k) self).1 = Return pages /\
      length pages = k /\
      concat pages = take (k * Z.to_nat ps) rows /\
      (len rows <= Z.of_nat k * ps -> concat pages = rows).
Proof.
  intros fs page_size ps self self' rows k Hps Hps1 Hds.
  assert (exists pages,
             (for_each (fun page => SimplePagination.get_page fs page page_size)
                (page_numbers k) self).1 = Return pages /\
             length pages = k /\
             concat pages = take (k * Z.to_nat ps) rows)
    as (pages & Hcall & Hlen & Hconcat).
  { destruct k as [|n].
    - exists []. repeat split.
    - pose proof (simple_dataset_returns fs self self' rows Hds) as Hcache.
      destruct (simple_pages_cached fs page_size ps self' rows n 1
                  Hps Hps1 Hcache) as (pages & Hrest & Hconcat & Hlen).
      exists (py_slice rows (Some ((1 - 1) * ps)) (Some (1 * ps)) :: pages).
      split; [|split].
      + unfold page_numbers. cbn [seq fmap list_fmap for_each]. cbv [bind].
        rewrite (simple_get_page_valid fs (PyInt (Z.of_nat 1)) page_size
                   1 ps self eq_refl Hps ltac:(lia) Hps1).
        rewrite Hds. fold (@fmap list _ nat py_value).
        now rewrite Hrest.
      + cbn [length]. now rewrite Hlen.
      + cbn [concat]. rewrite Hconcat, page_slice by lia.
        change (Z.to_nat (1 - 1) * Z.to_nat ps)%nat with 0%nat.
        rewrite drop_0.
        change (S n * Z.to_nat ps)%nat
          with (Z.to_nat ps + n * Z.to_nat ps)%nat.
        rewrite <- (take_take_drop rows (Z.to_nat ps) (n * Z.to_nat ps)).
        now rewrite Nat.mul_1_l. }
  exists pages. repeat split; try assumption.
  intros Hall. rewrite Hconcat. apply take_ge. unfold len in Hall. nia.
Qed.

(** Four records in pages of three: two pages, and nothing is lost. *)
Lemma get_page_pages_cover_witness :
  exists pages,
    (for_each (fun page =>
                 SimplePagination.get_page (disk (Some four_records))
                   page (PyInt 3))
       (page_numbers 2) SimplePagination.__init__).1 = Return pages /\
    length pages = 2%nat /\
    concat pages = [record_A; record_B; record_C; record_D].
Proof.
  set (rows := [record_A; record_B; record_C; record_D]).
  destruct (get_page_pages_cover (disk (Some four_records)) (PyInt 3) 3
              SimplePagination.__init__
              {| SimplePagination._Server__dataset := Some rows |}
              rows 2 eq_refl ltac:(lia) eq_refl)
    as (pages & Hcall & Hlen & _ & Hall).
  exists pages. split; [exact Hcall|]. split; [exact Hlen|].
  apply Hall. vm_compute. discriminate.
Defined.

(** X2. For integers [page >= 1] and [page_size >= 1] and a dataset that
    loads, the page returned has exactly
    [max(0, min(page_size, len(dataset) - start))] records, where
    [start = (page - 1) * page_size]: a page that lies entirely inside the
    dataset is full, and the page is empty exactly when [start] is at or
    beyond the end of the dataset. *)
Theorem get_page_length :
  forall fs page page_size p ps (self self' : SimplePagination.Server)
         (rows : list Row),
    as_int page = Some p -> as_int page_size = Some ps ->
    1 <= p -> 1 <= ps ->
    SimplePagination.dataset fs self = (Return rows, self') ->
    exists data,
      SimplePagination.get_page fs page page_size self
        = (Return data, self') /\
      len data = Z.max 0 (Z.min ps (len rows - (p - 1) * ps)) /\
      (p * ps <= len rows -> len data = ps) /\
      (data = [] <-> len rows <= (p - 1) * ps).
Proof.
  intros fs page page_size p ps self self' rows Hp Hps Hp1 Hps1 Hds.
  exists (py_slice rows (Some ((p - 1) * ps)) (Some (p * ps))).
  split.
  { rewrite (simple_get_page_valid fs page page_size p ps self
               Hp Hps Hp1 Hps1).
    now rewrite Hds. }
  pose proof (page_slice_length rows p ps Hp1 Hps1) as Hlen.
  split; [exact Hlen|]. split.
  - intros Hfull. rewrite Hlen. lia.
  - rewrite <- len_zero_iff_nil, Hlen.
    assert (0 <= (p - 1) * ps) by nia. lia.
Qed.

(** The second page of four records cut in threes holds one record. *)
Lemma get_page_length_witness :
  exists data self',
    SimplePagination.get_page (disk (Some four_records))
      (PyInt 2) (PyInt 3) SimplePagination.__init__ = (Return data, self') /\
    len data = 1.
Proof.
  set (rows := [record_A; record_B; record_C; record_D]).
  destruct (get_page_length (disk (Some four_records)) (PyInt 2) (PyInt 3)
              2 3 SimplePagination.__init__
              {| SimplePagination._Server__dataset := Some rows |}
              rows eq_refl eq_refl ltac:(lia) ltac:(lia) eq_refl)
    as (data & Hcall & Hlen & _).
  exists data. eexists. split; [exact Hcall|]. exact Hlen.
Defined.

(** X3. The first call of [dataset()] on an instance that has nothing
    cached, with a data file that can be read, returns the rows of the file
    without the first one (the header) and stores them; a file with a
    header only, or with no row at all, gives the empty dataset and no
    error. *)
Theorem dataset_drops_header :
  forall fs (self : SimplePagination.Server) (file : list Row),
    SimplePagination._Server__dataset self = None ->
    fs SimplePagination.DATA_FILE = Readable file ->
    SimplePagination.dataset fs self =
      (Return (drop 1 file),
       {| SimplePagination._Server__dataset := Some (drop 1 file) |}) /\
    len (drop 1 file) = Z.max 0 (len file - 1) /\
    (forall i : nat, drop 1 file !! i = file !! S i) /\
    (len file <= 1 -> drop 1 file = []).
Proof.
  intros fs self file Hnone Hfile.
  rewrite (simple_dataset_load fs self file Hnone Hfile).
  rewrite py_slice_from by lia. change (Z.to_nat 1) with 1%nat.
  split; [reflexivity|]. split; [|split].
  - unfold len. rewrite length_drop. lia.
  - intros i. now rewrite lookup_drop.
  - intros Hshort. apply drop_ge. unfold len in Hshort. lia.
Qed.

(** A file that holds its header and nothing else. *)
Lemma dataset_drops_header_witness :
  SimplePagination.dataset (disk (Some [header])) SimplePagination.__init__
  = (Return [], {| SimplePagination._Server__dataset := Some [] |}).
Proof.
  exact (proj1 (dataset_drops_header (disk (Some [header]))
                  SimplePagination.__init__ [header] eq_refl eq_refl)).
Defined.

(** X4. A failed load is not remembered: when the data file cannot be
    read, for whatever reason, [dataset()] raises the exception of that
    failure and leaves the instance with nothing cached, and a later call,
    made once the file can be read, reads it and caches its records. *)
Theorem dataset_retries_after_failure :
  forall fs fs' (self : SimplePagination.Server) (why : read_failure)
         (file : list Row),
    SimplePagination._Server__dataset self = None ->
    fs SimplePagination.DATA_FILE = Unreadable why ->
    fs' SimplePagination.DATA_FILE = Readable file ->
    SimplePagination.dataset fs self = (Raise (read_exception why), self) /\
    call_each SimplePagination.dataset [fs; fs'] self =
      ([Raise (read_exception why); Return (drop 1 file)],
       {| SimplePagination._Server__dataset := Some (drop 1 file) |}).
Proof.
  intros fs fs' self why file Hnone Hmissing Hfile.
  pose proof (simple_dataset_missing fs self why Hnone Hmissing) as Hfail.
  split; [exact Hfail|].
  cbn [call_each]. rewrite Hfail.
  rewrite (simple_dataset_load fs' self file Hnone Hfile).
  rewrite py_slice_from by lia. reflexivity.
Qed.

Lemma dataset_retries_after_failure_witness :
  call_each SimplePagination.dataset
    [disk None; disk (Some four_records)] SimplePagination.__init__
  = ([Raise FileNotFoundError;
      Return [record_A; record_B; record_C; record_D]],
     {| SimplePagination._Server__dataset :=
          Some [record_A; record_B; record_C; record_D] |}).
Proof.
  exact (proj2 (dataset_retries_after_failure (disk None)
                  (disk (Some four_records)) SimplePagination.__init__
                  NoSuchFile four_records eq_refl eq_refl eq_refl)).
Defined.

(** ** 2-hypermedia_pagination.py, continued *)
Section HypermediaPaginationOutcomes.
Import HypermediaPagination.
Variable fs : FileSystem.

(** [dataset] fails in one way only: nothing is cached and the data file
    cannot be read; the exception is that of the failed read. *)
Lemma hyper_dataset_raises (self self' : Server) (e : py_exception) :
  dataset fs self = (Raise e, self') ->
  self' = self /\ _Server__dataset self = None /\
  exists why, fs DATA_FILE = Unreadable why /\ e = read_exception why.
Proof.
  unfold dataset. run_method.
  destruct (_Server__dataset self) as [cached|]; [discriminate|].
  destruct (fs DATA_FILE) as [file|why]; [discriminate|].
  intros [= <- <-]. repeat split. now exists why.
Qed.

(** A call of [get_hyper] that returns had valid arguments and a dataset
    that loaded. *)
Lemma hyper_get_hyper_returns_inv (page page_size : py_value)
    (self self' : Server) (d : Page.t) :
  get_hyper fs page page_size self = (Return d, self') ->
  exists p ps rows,
    as_int page = Some p /\ as_int page_size = Some ps /\
    1 <= p /\ 1 <= ps /\
    dataset fs self = (Return rows, self').
Proof.
  intros Hcall.
  destruct (positive_int page && positive_int page_size) eqn:Hargs.
  - apply andb_true_iff in Hargs as [Hpage Hsize].
    apply positive_int_spec in Hpage as (p & Hp & Hp1).
    apply positive_int_spec in Hsize as (ps & Hps & Hps1).
    exists p, ps.
    pose proof (hyper_get_page_valid fs page page_size p ps self
                  Hp Hps Hp1 Hps1) as Hpage.
    destruct (dataset fs self) as [[rows|e] self''] eqn:Hds.
    + destruct (hyper_get_hyper_valid fs page page_size p ps self self''
                  rows Hp Hps Hp1 Hps1 Hds) as (q & _ & Hvalid).
      rewrite Hvalid in Hcall. injection Hcall as _ <-.
      exists rows. repeat split; assumption.
    + rewrite (hyper_get_hyper_raises fs page page_size self self'' e Hpage)
        in Hcall.
      discriminate.
  - rewrite (hyper_get_hyper_raises fs page page_size self self
               AssertionError (hyper_get_page_invalid fs page page_size
                                 self Hargs)) in Hcall.
    discriminate.
Qed.
End HypermediaPaginationOutcomes.

(** X5. [get_hyper] fails in two ways only, and in both it leaves the
    instance as it found it: with [AssertionError] when an argument is not
    an integer of at least 1; and, when the arguments are valid, nothing is
    cached and the data file cannot be read, with the exception of that
    failed read, whatever it is.  In particular the direct read of the
    private attribute, the division by [page_size] and the slice never
    raise. *)
Theorem get_hyper_failures :
  forall fs page page_size (self self' : HypermediaPagination.Server) e,
    HypermediaPagination.get_hyper fs page page_size self = (Raise e, self') ->
    self' = self /\
    ((e = AssertionError /\ invalid_arguments page page_size) \/
     (~ invalid_arguments page page_size /\
      HypermediaPagination._Server__dataset self = None /\
      exists why,
        fs HypermediaPagination.DATA_FILE = Unreadable why /\
        e = read_exception why)) /\
    e <> TypeError /\ e <> ZeroDivisionError /\ e <> IndexError.
Proof.
  intros fs page page_size self self' e Hcall.
  destruct (positive_int page && positive_int page_size) eqn:Hargs.
  - assert (~ invalid_arguments page page_size) as Hok
      by (rewrite invalid_arguments_iff, Hargs; discriminate).
    destruct (proj1 (valid_arguments_iff page page_size) Hok)
      as (p & ps & Hp & Hps & Hp1 & Hps1).
    pose proof (hyper_get_page_valid fs page page_size p ps self
                  Hp Hps Hp1 Hps1) as Hpage.
    destruct (HypermediaPagination.dataset fs self)
      as [[rows|e'] self''] eqn:Hds.
    + destruct (hyper_get_hyper_valid fs page page_size p ps self self''
                  rows Hp Hps Hp1 Hps1 Hds) as (q & _ & Hvalid).
      rewrite Hvalid in Hcall. discriminate.
    + rewrite (hyper_get_hyper_raises fs page page_size self self'' e' Hpage)
        in Hcall.
      injection Hcall as <- <-.
      destruct (hyper_dataset_raises fs self self'' e' Hds)
        as (-> & Hnone & why & Hfile & ->).
      split; [reflexivity|]. split.
      * right. split; [exact Hok|]. split; [exact Hnone|]. now exists why.
      * destruct why; repeat split; discriminate.
  - rewrite (hyper_get_hyper_raises fs page page_size self self
               AssertionError (hyper_get_page_invalid fs page page_size
                                 self Hargs)) in Hcall.
    injection Hcall as <- <-.
    split; [reflexivity|]. split.
    + left. split; [reflexivity|]. now apply invalid_arguments_iff.
    + repeat split; discriminate.
Qed.

(** A page size of zero on a fresh instance: the assertion fires before
    the file is looked at. *)
Lemma get_hyper_failures_witness :
  HypermediaPagination.get_hyper (disk None) (PyInt 1) (PyInt 0)
    HypermediaPagination.__init__
  = (Raise AssertionError, HypermediaPagination.__init__) /\
  invalid_arguments (PyInt 1) (PyInt 0).
Proof.
  assert (HypermediaPagination.get_hyper (disk None) (PyInt 1) (PyInt 0)
            HypermediaPagination.__init__
          = (Raise AssertionError, HypermediaPagination.__init__)) as Hcall
    by reflexivity.
  split; [exact Hcall|].
  destruct (get_hyper_failures (disk None) (PyInt 1) (PyInt 0)
              HypermediaPagination.__init__ HypermediaPagination.__init__
              AssertionError Hcall)
    as (_ & [[_ Hbad]|(_ & _ & why & _ & Habs)] & _).
  - exact Hbad.
  - destruct why; discriminate.
Defined.

(** X6. On an empty dataset (a data file with a header only, or with
    nothing), [get_hyper] with valid arguments returns, for every page, an
    empty [data], a [page_size] and a [total_pages] of 0 and no
    [next_page]. *)
Theorem get_hyper_empty_dataset :
  forall fs page page_size p ps (self self' : HypermediaPagination.Server),
    as_int page = Some p -> as_int page_size = Some ps ->
    1 <= p -> 1 <= ps ->
    HypermediaPagination.dataset fs self = (Return [], self') ->
    exists d,
      HypermediaPagination.get_hyper fs page page_size self
        = (Return d, self') /\
      Page.data d = [] /\ Page.page_size d = 0 /\
      Page.total_pages d = 0 /\ Page.next_page d = None.
Proof.
  intros fs page page_size p ps self self' Hp Hps Hp1 Hps1 Hds.
  destruct (hyper_get_hyper_valid fs page page_size p ps self self' []
              Hp Hps Hp1 Hps1 Hds) as (q & Hq & Hcall).
  eexists. split; [exact Hcall|].
  cbn [Page.data Page.page_size Page.total_pages Page.next_page].
  assert (q = Float 0 0) as ->.
  { unfold int_true_divide in Hq. change (len (@nil Row)) with 0 in Hq.
    destruct (Z.eqb_spec ps 0) as [|_]; [lia|].
    change (0 =? 0) with true in Hq. cbv iota in Hq. congruence. }
  assert (py_slice (@nil Row) (Some ((p - 1) * ps)) (Some (p * ps)) = [])
    as -> by (apply py_slice_beyond; change (len (@nil Row)) with 0; nia).
  change (math_ceil (Float 0 0)) with 0.
  repeat split. destruct (Z.leb_spec (p + 1) 0); [lia|reflexivity].
Qed.

Lemma get_hyper_empty_dataset_witness :
  exists d self',
    HypermediaPagination.get_hyper (disk (Some [header]))
      (PyInt 1) (PyInt 10) HypermediaPagination.__init__ = (Return d, self') /\
    Page.data d = [] /\ Page.total_pages d = 0 /\ Page.next_page d = None.
Proof.
  destruct (get_hyper_empty_dataset (disk (Some [header]))
              (PyInt 1) (PyInt 10) 1 10 HypermediaPagination.__init__
              {| HypermediaPagination._Server__dataset := Some [] |}
              eq_refl eq_refl ltac:(lia) ltac:(lia) eq_refl)
    as (d & Hcall & Hdata & _ & Htotal & Hnext).
  exists d. eexists. split; [exact Hcall|]. repeat split; assumption.
Defined.

(** ** [get_hyper] within the range of binary64 *)
Section HypermediaPaginationInRange.
Import HypermediaPagination.
Variable fs : FileSystem.

(** The dictionary of [get_hyper], with [total_pages] known to be the
    ceiling of the quotient and the length of the page computed. *)
Lemma hyper_get_hyper_in_range (page page_size : py_value) (p ps : Z)
    (self self' : Server) (rows : list Row) :
  as_int page = Some p ->
  as_int page_size = Some ps ->
  1 <= p ->
  1 <= ps < 2 ^ 1075 ->
  dataset fs self = (Return rows, self') ->
  len rows < 2 ^ 53 ->
  exists d,
    get_hyper fs page page_size self = (Return d, self') /\
    is_ceiling (Page.total_pages d) (len rows) ps /\
    Page.page_size d = Z.max 0 (Z.min ps (len rows - (p - 1) * ps)) /\
    Page.page_size d = len (Page.data d) /\
    Page.next_page d =
      (if p + 1 <=? Page.total_pages d then Some (p + 1) else None).
Proof.
  intros Hp Hps Hp1 Hps1 Hds Hlen.
  destruct (hyper_get_hyper_valid fs page page_size p ps self self' rows
              Hp Hps Hp1 ltac:(lia) Hds) as (q & Hq & Hcall).
  eexists. split; [exact Hcall|].
  cbn [Page.data Page.total_pages Page.page_size Page.next_page].
  pose proof (len_nonneg rows) as Hnn.
  destruct (math_ceil_int_true_divide (len rows) ps ltac:(lia) Hps1)
    as (q' & Hq' & Hceil).
  rewrite Hq in Hq'. injection Hq' as <-.
  split; [exact Hceil|]. split; [|split; reflexivity].
  apply page_slice_length; lia.
Qed.
End HypermediaPaginationInRange.

(** X7. For integers [page >= 1] and [1 <= page_size < 2^1075] and a
    loaded dataset of fewer than 2^53 records, the pages that hold records
    are exactly the pages 1 to [total_pages]: [data] is not empty if and
    only if [page <= total_pages]. *)
Theorem get_hyper_nonempty_pages :
  forall fs page page_size p ps (self self' : HypermediaPagination.Server)
         (rows : list Row),
    as_int page = Some p -> as_int page_size = Some ps ->
    1 <= p -> 1 <= ps < 2 ^ 1075 ->
    HypermediaPagination.dataset fs self = (Return rows, self') ->
    len rows < 2 ^ 53 ->
    exists d,
      HypermediaPagination.get_hyper fs page page_size self
        = (Return d, self') /\
      (Page.data d <> [] <-> p <= Page.total_pages d).
Proof.
  intros fs page page_size p ps self self' rows Hp Hps Hp1 Hps1 Hds Hlen.
  destruct (hyper_get_hyper_in_range fs page page_size p ps self self' rows
              Hp Hps Hp1 Hps1 Hds Hlen)
    as (d & Hcall & Hceil & Hsize & Hdata & _).
  exists d. split; [exact Hcall|].
  rewrite <- len_zero_iff_nil, <- Hdata, Hsize.
  unfold is_ceiling in Hceil. pose proof (len_nonneg rows).
  split.
  - intros Hne. destruct (Z.le_gt_cases p (Page.total_pages d));
      [assumption|]. exfalso. apply Hne. nia.
  - intros Hle. nia.
Qed.

Lemma get_hyper_nonempty_pages_witness :
  exists d self',
    HypermediaPagination.get_hyper (disk (Some four_records))
      (PyInt 2) (PyInt 3) HypermediaPagination.__init__ = (Return d, self') /\
    (Page.data d <> [] <-> 2 <= Page.total_pages d).
Proof.
  set (rows := [record_A; record_B; record_C; record_D]).
  assert (2 ^ 53 = 9007199254740992) as H53 by reflexivity.
  assert (3 < 2 ^ 1075) as Hsmall
    by (apply (Z.lt_le_trans _ (2 ^ 2));
        [reflexivity|apply Z.pow_le_mono_r; lia]).
  destruct (get_hyper_nonempty_pages (disk (Some four_records))
              (PyInt 2) (PyInt 3) 2 3 HypermediaPagination.__init__
              {| HypermediaPagination._Server__dataset := Some rows |} rows
              eq_refl eq_refl ltac:(lia) ltac:(lia) eq_refl
              ltac:(rewrite H53; reflexivity))
    as (d & Hcall & Hiff).
  exists d. eexists. split; [exact Hcall|exact Hiff].
Defined.

(** X8. Under the same bounds, every page before the last is full and is
    followed by a next page, and the last page, [page = total_pages], holds
    the records that remain, at least one and at most [page_size], and has
    no next page. *)
Theorem get_hyper_full_and_last_pages :
  forall fs page page_size p ps (self self' : HypermediaPagination.Server)
         (rows : list Row),
    as_int page = Some p -> as_int page_size = Some ps ->
    1 <= p -> 1 <= ps < 2 ^ 1075 ->
    HypermediaPagination.dataset fs self = (Return rows, self') ->
    len rows < 2 ^ 53 ->
    exists d,
      HypermediaPagination.get_hyper fs page page_size self
        = (Return d, self') /\
      (p < Page.total_pages d ->
       Page.page_size d = ps /\ Page.next_page d = Some (p + 1)) /\
      (p = Page.total_pages d ->
       Page.page_size d = len rows - (p - 1) * ps /\
       1 <= Page.page_size d <= ps /\
       Page.next_page d = None).
Proof.
  intros fs page page_size p ps self self' rows Hp Hps Hp1 Hps1 Hds Hlen.
  destruct (hyper_get_hyper_in_range fs page page_size p ps self self' rows
              Hp Hps Hp1 Hps1 Hds Hlen)
    as (d & Hcall & Hceil & Hsize & _ & Hnext).
  exists d. split; [exact Hcall|].
  rewrite Hsize, Hnext. unfold is_ceiling in Hceil.
  split.
  - intros Hbefore.
    destruct (Z.leb_spec (p + 1) (Page.total_pages d)); [|lia].
    split; [nia|reflexivity].
  - intros Hlast.
    destruct (Z.leb_spec (p + 1) (Page.total_pages d)); [lia|].
    rewrite <- Hlast in Hceil. repeat split; lia.
Qed.

Lemma get_hyper_full_and_last_pages_witness :
  exists d self',
    HypermediaPagination.get_hyper (disk (Some four_records))
      (PyInt 1) (PyInt 3) HypermediaPagination.__init__ = (Return d, self') /\
    Page.page_size d = 3 /\ Page.next_page d = Some 2.
Proof.
  set (rows := [record_A; record_B; record_C; record_D]).
  assert (2 ^ 53 = 9007199254740992) as H53 by reflexivity.
  assert (3 < 2 ^ 1075) as Hsmall
    by (apply (Z.lt_le_trans _ (2 ^ 2));
        [reflexivity|apply Z.pow_le_mono_r; lia]).
  destruct (get_hyper_full_and_last_pages (disk (Some four_records))
              (PyInt 1) (PyInt 3) 1 3 HypermediaPagination.__init__
              {| HypermediaPagination._Server__dataset := Some rows |} rows
              eq_refl eq_refl ltac:(lia) ltac:(lia) eq_refl
              ltac:(rewrite H53; reflexivity))
    as (d & Hcall & Hfull & _).
  exists d. eexists. split; [exact Hcall|].
  apply Hfull. pose proof Hcall as Hd. vm_compute in Hd.
  injection Hd as Hd. subst d. reflexivity.
Defined.

(** ** Following the links of [get_hyper] *)
Section HypermediaPaginationLinks.
Import HypermediaPagination.

(** Once a call of [get_hyper] has returned, the dataset is cached and
    every file system serves it. *)
Lemma hyper_get_hyper_loaded (fs : FileSystem) (page page_size : py_value)
    (self self' : Server) (d : Page.t) :
  get_hyper fs page page_size self = (Return d, self') ->
  exists p ps rows,
    as_int page = Some p /\ as_int page_size = Some ps /\
    1 <= p /\ 1 <= ps /\
    dataset fs self = (Return rows, self') /\
    forall fs', dataset fs' self' = (Return rows, self').
Proof.
  intros Hcall.
  destruct (hyper_get_hyper_returns_inv fs page page_size self self' d Hcall)
    as (p & ps & rows & Hp & Hps & Hp1 & Hps1 & Hds).
  exists p, ps, rows. repeat split; try assumption.
  intros fs'. apply hyper_dataset_cached.
  exact (hyper_dataset_returns fs self self' rows Hds).
Qed.
End HypermediaPaginationLinks.

(** X9. The links of [get_hyper] are mutual: when a call for [page]
    returns a dictionary whose [next_page] is some [n], then [n] is
    [page + 1], and a call for page [n] with the same [page_size], made on
    the same instance whatever has become of the data file, returns a
    dictionary whose [prev_page] is [page] and whose [total_pages] is the
    same. *)
Theorem get_hyper_next_then_prev :
  forall fs fs' page page_size (self self' : HypermediaPagination.Server)
         d n,
    HypermediaPagination.get_hyper fs page page_size self
      = (Return d, self') ->
    Page.next_page d = Some n ->
    exists p d',
      as_int page = Some p /\ n = p + 1 /\
      HypermediaPagination.get_hyper fs' (PyInt n) page_size self'
        = (Return d', self') /\
      Page.prev_page d' = Some p /\
      Page.total_pages d' = Page.total_pages d.
Proof.
  intros fs fs' page page_size self self' d n Hcall Hnext.
  destruct (hyper_get_hyper_loaded fs page page_size self self' d Hcall)
    as (p & ps & rows & Hp & Hps & Hp1 & Hps1 & Hds & Hcached).
  destruct (hyper_get_hyper_valid fs page page_size p ps self self' rows
              Hp Hps Hp1 Hps1 Hds) as (q & Hq & Hd).
  rewrite Hd in Hcall. injection Hcall as <-.
  cbn [Page.next_page Page.total_pages] in *.
  assert (n = p + 1) as ->
    by (destruct (p + 1 <=? math_ceil q); congruence).
  destruct (hyper_get_hyper_valid fs' (PyInt (p + 1)) page_size (p + 1) ps
              self' self' rows eq_refl Hps ltac:(lia) Hps1 (Hcached fs'))
    as (q' & Hq' & Hd').
  rewrite Hq in Hq'. injection Hq' as <-.
  exists p. eexists. split; [exact Hp|]. split; [reflexivity|].
  split; [exact Hd'|]. cbn [Page.prev_page Page.total_pages].
  split; [|reflexivity].
  rewrite Z.gtb_ltb. destruct (Z.ltb_spec 0 (p + 1 - 1)); [|lia].
  f_equal. lia.
Qed.

Lemma get_hyper_next_then_prev_witness :
  exists d',
    HypermediaPagination.get_hyper (disk None) (PyInt 2) (PyInt 3)
      {| HypermediaPagination._Server__dataset :=
           Some [record_A; record_B; record_C; record_D] |}
    = (Return d',
       {| HypermediaPagination._Server__dataset :=
            Some [record_A; record_B; record_C; record_D] |}) /\
    Page.prev_page d' = Some 1.
Proof.
  set (rows := [record_A; record_B; record_C; record_D]).
  set (self' := {| HypermediaPagination._Server__dataset := Some rows |}).
  assert (exists d,
             HypermediaPagination.get_hyper (disk (Some four_records))
               (PyInt 1) (PyInt 3) HypermediaPagination.__init__
             = (Return d, self') /\ Page.next_page d = Some 2)
    as (d & Hcall & Hnext)
    by (eexists; split; [vm_compute; reflexivity|reflexivity]).
  destruct (get_hyper_next_then_prev (disk (Some four_records)) (disk None)
              (PyInt 1) (PyInt 3) HypermediaPagination.__init__ self' d 2
              Hcall Hnext)
    as (p & d' & Hp & _ & Hcall' & Hprev & _).
  injection Hp as <-. exists d'. split; [exact Hcall'|exact Hprev].
Defined.

(** X10. For [1 <= page_size < 2^1075] and a loaded dataset of fewer than
    2^53 records, a [next_page] link never leads to an empty page: when
    [get_hyper] returns [next_page = n], the call for page [n] returns
    at least one record. *)
Theorem get_hyper_next_page_not_empty :
  forall fs fs' page page_size p ps
         (self self' : HypermediaPagination.Server) (rows : list Row),
    as_int page = Some p -> as_int page_size = Some ps ->
    1 <= p -> 1 <= ps < 2 ^ 1075 ->
    HypermediaPagination.dataset fs self = (Return rows, self') ->
    len rows < 2 ^ 53 ->
    exists d,
      HypermediaPagination.get_hyper fs page page_size self
        = (Return d, self') /\
      forall n,
        Page.next_page d = Some n ->
        exists d',
          HypermediaPagination.get_hyper fs' (PyInt n) page_size self'
            = (Return d', self') /\
          Page.data d' <> [].
Proof.
  intros fs fs' page page_size p ps self self' rows
         Hp Hps Hp1 Hps1 Hds Hlen.
  destruct (hyper_get_hyper_in_range fs page page_size p ps self self' rows
              Hp Hps Hp1 Hps1 Hds Hlen)
    as (d & Hcall & Hceil & _ & _ & Hnext).
  exists d. split; [exact Hcall|]. intros n Hn. rewrite Hnext in Hn.
  destruct (Z.leb_spec (p + 1) (Page.total_pages d)) as [Hle|];
    [|discriminate].
  injection Hn as <-.
  assert (HypermediaPagination.dataset fs' self' = (Return rows, self'))
    as Hds'.
  { apply hyper_dataset_cached.
    exact (hyper_dataset_returns fs self self' rows Hds). }
  destruct (hyper_get_hyper_in_range fs' (PyInt (p + 1)) page_size (p + 1)
              ps self' self' rows eq_refl Hps ltac:(lia) Hps1 Hds' Hlen)
    as (d' & Hcall' & Hceil' & Hsize' & Hdata' & _).
  exists d'. split; [exact Hcall'|].
  rewrite <- len_zero_iff_nil, <- Hdata', Hsize'.
  assert (Page.total_pages d' = Page.total_pages d) as Htotal
    by (apply (is_ceiling_unique _ _ (len rows) ps); [lia|assumption..]).
  unfold is_ceiling in Hceil. nia.
Qed.

Lemma get_hyper_next_page_not_empty_witness :
  exists d',
    HypermediaPagination.get_hyper (disk None) (PyInt 2) (PyInt 3)
      {| HypermediaPagination._Server__dataset :=
           Some [record_A; record_B; record_C; record_D] |}
    = (Return d',
       {| HypermediaPagination._Server__dataset :=
            Some [record_A; record_B; record_C; record_D] |}) /\
    Page.data d' <> [].
Proof.
  set (rows := [record_A; record_B; record_C; record_D]).
  set (self' := {| HypermediaPagination._Server__dataset := Some rows |}).
  assert (2 ^ 53 = 9007199254740992) as H53 by reflexivity.
  assert (3 < 2 ^ 1075) as Hsmall
    by (apply (Z.lt_le_trans _ (2 ^ 2));
        [reflexivity|apply Z.pow_le_mono_r; lia]).
  destruct (get_hyper_next_page_not_empty (disk (Some four_records))
              (disk None) (PyInt 1) (PyInt 3) 1 3
              HypermediaPagination.__init__ self' rows
              eq_refl eq_refl ltac:(lia) ltac:(lia) eq_refl
              ltac:(rewrite H53; reflexivity))
    as (d & Hcall & Hnext).
  apply (Hnext 2). pose proof Hcall as Hd. vm_compute in Hd.
  injection Hd as Hd. subst d. reflexivity.
Defined.

(** X11. A call of [get_hyper] that has returned can be repeated at will:
    with the same arguments on the same instance it returns the same
    dictionary and leaves the instance alone, whether the data file has
    changed, shrunk or gone. *)
Theorem get_hyper_repeatable :
  forall fs page page_size (self self' : HypermediaPagination.Server) d,
    HypermediaPagination.get_hyper fs page page_size self
      = (Return d, self') ->
    forall fss,
      call_each (fun fs' => HypermediaPagination.get_hyper fs' page page_size)
        fss self'
      = (replicate (length fss) (Return d), self').
Proof.
  intros fs page page_size self self' d Hcall fss.
  destruct (hyper_get_hyper_loaded fs page page_size self self' d Hcall)
    as (p & ps & rows & Hp & Hps & Hp1 & Hps1 & Hds & Hcached).
  apply call_each_stable. intros fs'.
  destruct (hyper_get_hyper_valid fs page page_size p ps self self' rows
              Hp Hps Hp1 Hps1 Hds) as (q & Hq & Hd).
  destruct (hyper_get_hyper_valid fs' page page_size p ps self' self' rows
              Hp Hps Hp1 Hps1 (Hcached fs')) as (q' & Hq' & Hd').
  rewrite Hq in Hq'. injection Hq' as <-.
  rewrite Hd in Hcall. injection Hcall as <-. exact Hd'.
Qed.

Lemma get_hyper_repeatable_witness :
  exists d self',
    HypermediaPagination.get_hyper (disk (Some four_records))
      (PyInt 1) (PyInt 3) HypermediaPagination.__init__ = (Return d, self') /\
    call_each
      (fun fs' => HypermediaPagination.get_hyper fs' (PyInt 1) (PyInt 3))
      [disk None; disk (Some fifty_records)] self'
    = ([Return d; Return d], self').
Proof.
  eexists. eexists.
  assert (forall d self',
             HypermediaPagination.get_hyper (disk (Some four_records))
               (PyInt 1) (PyInt 3) HypermediaPagination.__init__
             = (Return d, self') ->
             call_each
               (fun fs' =>
                  HypermediaPagination.get_hyper fs' (PyInt 1) (PyInt 3))
               [disk None; disk (Some fifty_records)] self'
             = ([Return d; Return d], self')) as Hagain.
  { intros d self' Hcall.
    exact (get_hyper_repeatable (disk (Some four_records)) (PyInt 1)
             (PyInt 3) HypermediaPagination.__init__ self' d Hcall
             [disk None; disk (Some fifty_records)]). }
  split; [vm_compute; reflexivity|].
  apply Hagain. vm_compute. reflexivity.
Defined.

(** ** 3-hypermedia_del_pagination.py, continued *)

(** A dictionary whose keys are exactly [0 .. n - 1] has [n] entries. *)
Lemma size_of_initial_segment {A} (n : nat) (d : gmap Z A) :
  (forall k : Z, is_Some (d !! k) <-> 0 <= k < Z.of_nat n) ->
  size d = n.
Proof.
  revert d. induction n as [|n IH]; intros d Hdom.
  - apply map_size_empty_iff, map_empty. intros k.
    destruct (d !! k) as [x|] eqn:Hk; [|reflexivity].
    assert (is_Some (d !! k)) as Hsome by (rewrite Hk; eauto).
    apply Hdom in Hsome. lia.
  - destruct (proj2 (Hdom (Z.of_nat n)) ltac:(lia)) as [x Hx].
    rewrite <- (insert_delete_id d (Z.of_nat n) x Hx).
    rewrite map_size_insert_None by apply lookup_delete_eq.
    f_equal. apply IH. intros k. rewrite lookup_delete.
    destruct (decide (Z.of_nat n = k)) as [<-|Hne].
    + split; [intros [y Hy]; discriminate|lia].
    + rewrite Hdom. lia.
Qed.

Section DelPaginationOutcomes.
Import DelPagination.
Variable fs : FileSystem.

Lemma del_dataset_raises (self self' : Server) (e : py_exception) :
  dataset fs self = (Raise e, self') ->
  self' = self /\ _Server__dataset self = None /\
  exists why, fs DATA_FILE = Unreadable why /\ e = read_exception why.
Proof.
  unfold dataset. run_method.
  destruct (_Server__dataset self) as [cached|]; [discriminate|].
  destruct (fs DATA_FILE) as [file|why]; [discriminate|].
  intros [= <- <-]. repeat split. now exists why.
Qed.

(** Without an index, [indexed_dataset] stops where [dataset] stops. *)
Lemma del_indexed_dataset_raises (self self' : Server) (e : py_exception) :
  _Server__indexed_dataset self = None ->
  dataset fs self = (Raise e, self') ->
  indexed_dataset fs self = (Raise e, self').
Proof.
  intros Hnone Hds. unfold indexed_dataset. cbv [bind getattr].
  now rewrite Hnone, Hds.
Qed.

(** Every method keeps the index in step with the cached dataset. *)
Lemma run_del_call_consistent (c : del_call) (self : Server) :
  index_consistent self -> index_consistent (run_del_call fs c self).
Proof.
  intros Hself. destruct c as [| |index page_size]; cbn [run_del_call].
  - destruct (dataset fs self) as [[rows|e] self'] eqn:Hds; cbn [snd].
    + destruct (del_dataset_returns fs self self' rows Hds)
        as [Hcache Hindex].
      intros d Hd. rewrite Hindex in Hd.
      destruct (Hself d Hd) as (rows' & Hcache' & Hlookup).
      rewrite (del_dataset_cached fs self rows' Hcache') in Hds.
      injection Hds as <- <-. exists rows'. split; assumption.
    + destruct (del_dataset_raises self self' e Hds) as (-> & _).
      exact Hself.
  - destruct (_Server__indexed_dataset self) as [d|] eqn:Hindex.
    + now rewrite (del_indexed_dataset_cached fs self d Hindex).
    + destruct (dataset fs self) as [[rows|e] self'] eqn:Hds.
      * destruct (del_indexed_dataset_build fs self self' rows Hindex Hds)
          as (d & -> & Hlookup).
        cbn [snd]. intros d' [= <-]. exists rows.
        split; [|exact Hlookup].
        exact (proj1 (del_dataset_returns fs self self' rows Hds)).
      * rewrite (del_indexed_dataset_raises self self' e Hindex Hds).
        destruct (del_dataset_raises self self' e Hds) as (-> & _).
        exact Hself.
  - exact Hself.
Qed.
End DelPaginationOutcomes.

(** X12. Building the index loads the dataset too: when
    [indexed_dataset()] returns on an instance that had no index, the
    dataset is cached on the instance, and every later [dataset()] call
    returns it without the data file. *)
Theorem indexed_dataset_loads_dataset :
  forall fs (self self' : DelPagination.Server) d,
    DelPagination._Server__indexed_dataset self = None ->
    DelPagination.indexed_dataset fs self = (Return d, self') ->
    exists rows,
      DelPagination._Server__dataset self' = Some rows /\
      (DelPagination.dataset fs self).1 = Return rows /\
      forall fss,
        call_each DelPagination.dataset fss self'
        = (replicate (length fss) (Return rows), self').
Proof.
  intros fs self self' d Hnone Hcall.
  destruct (DelPagination.dataset fs self) as [[rows|e] self1] eqn:Hds.
  - destruct (del_indexed_dataset_build fs self self1 rows Hnone Hds)
      as (d' & Hbuild & _).
    rewrite Hbuild in Hcall. injection Hcall as _ <-.
    pose proof (proj1 (del_dataset_returns fs self self1 rows Hds)) as Hcache.
    exists rows. split; [exact Hcache|]. split; [reflexivity|].
    intros fss. apply call_each_stable. intros fs'.
    now apply del_dataset_cached.
  - rewrite (del_indexed_dataset_raises fs self self1 e Hnone Hds) in Hcall.
    discriminate.
Qed.

Lemma indexed_dataset_loads_dataset_witness :
  exists d self',
    DelPagination.indexed_dataset (disk (Some four_records))
      DelPagination.__init__ = (Return d, self') /\
    DelPagination.dataset (disk None) self'
    = (Return [record_A; record_B; record_C; record_D], self').
Proof.
  eexists. eexists.
  assert (forall d self',
             DelPagination.indexed_dataset (disk (Some four_records))
               DelPagination.__init__ = (Return d, self') ->
             DelPagination.dataset (disk None) self'
             = (Return [record_A; record_B; record_C; record_D], self'))
    as Hlater.
  { intros d self' Hcall.
    destruct (indexed_dataset_loads_dataset (disk (Some four_records))
                DelPagination.__init__ self' d eq_refl Hcall)
      as (rows & _ & Hrows & Hagain).
    injection Hrows as <-.
    specialize (Hagain [disk None]).
    cbn [call_each length replicate] in Hagain.
    destruct (DelPagination.dataset (disk None) self') as [r s].
    now injection Hagain as -> ->. }
  split; [vm_compute; reflexivity|].
  eapply Hlater. vm_compute. reflexivity.
Defined.

(** X13. [indexed_dataset] fails in one way only: when neither the index
    nor the dataset is cached and the data file cannot be read, with the
    exception of that failed read, whatever it is; the instance is then
    left as it was.  The subscripts of the comprehension never go out of
    range. *)
Theorem indexed_dataset_failures :
  forall fs (self self' : DelPagination.Server) e,
    DelPagination.indexed_dataset fs self = (Raise e, self') ->
    self' = self /\
    DelPagination._Server__indexed_dataset self = None /\
    DelPagination._Server__dataset self = None /\
    (exists why,
        fs DelPagination.DATA_FILE = Unreadable why /\
        e = read_exception why) /\
    e <> IndexError.
Proof.
  intros fs self self' e Hcall.
  destruct (DelPagination._Server__indexed_dataset self) as [d|] eqn:Hindex.
  - rewrite (del_indexed_dataset_cached fs self d Hindex) in Hcall.
    discriminate.
  - destruct (DelPagination.dataset fs self) as [[rows|e'] self1] eqn:Hds.
    + destruct (del_indexed_dataset_build fs self self1 rows Hindex Hds)
        as (d & Hbuild & _).
      rewrite Hbuild in Hcall. discriminate.
    + rewrite (del_indexed_dataset_raises fs self self1 e' Hindex Hds)
        in Hcall.
      injection Hcall as <- <-.
      destruct (del_dataset_raises fs self self1 e' Hds)
        as (-> & Hcache & why & Hfile & ->).
      split; [reflexivity|]. split; [reflexivity|]. split; [exact Hcache|].
      split; [now exists why|]. destruct why; discriminate.
Qed.

(** A data file that opens but does not decode: the index is not built,
    the decoding error comes out, and nothing is cached. *)
Lemma indexed_dataset_failures_witness :
  DelPagination.indexed_dataset (fun _ => Unreadable UndecodableBytes)
    DelPagination.__init__
  = (Raise UnicodeDecodeError, DelPagination.__init__).
Proof.
  destruct (DelPagination.indexed_dataset
              (fun _ => Unreadable UndecodableBytes) DelPagination.__init__)
    as [[d|e] self'] eqn:Hcall.
  - vm_compute in Hcall. discriminate.
  - destruct (indexed_dataset_failures (fun _ => Unreadable UndecodableBytes)
                DelPagination.__init__ self' e Hcall)
      as (-> & _ & _ & (why & Hwhy & ->) & _).
    injection Hwhy as <-. reflexivity.
Defined.

(** X14. The index built on an instance without one has exactly
    [min(len(dataset), 1000)] entries, and so never more than 1000. *)
Theorem indexed_dataset_size :
  forall fs (self self' : DelPagination.Server) (rows : list Row),
    DelPagination._Server__indexed_dataset self = None ->
    DelPagination.dataset fs self = (Return rows, self') ->
    exists d self'',
      DelPagination.indexed_dataset fs self = (Return d, self'') /\
      size d = Z.to_nat (Z.min (len rows) 1000) /\
      (size d <= 1000)%nat.
Proof.
  intros fs self self' rows Hnone Hds.
  destruct (del_indexed_dataset_build fs self self' rows Hnone Hds)
    as (d & Hbuild & Hlookup).
  exists d. eexists. split; [exact Hbuild|].
  assert (size d = Z.to_nat (Z.min (len rows) 1000)) as Hsize.
  { apply size_of_initial_segment. intros k. rewrite Hlookup.
    pose proof (len_nonneg rows).
    destruct (decide (0 <= k < Z.min (len rows) 1000)) as [Hin|Hout].
    - split; [lia|]. intros _. apply lookup_lt_is_Some.
      unfold len in Hin. lia.
    - split; [intros [x Hx]; discriminate|lia]. }
  split; [exact Hsize|]. rewrite Hsize. lia.
Qed.

Lemma indexed_dataset_size_witness :
  exists d self'',
    DelPagination.indexed_dataset (disk (Some four_records))
      DelPagination.__init__ = (Return d, self'') /\
    size d = 4%nat.
Proof.
  set (rows := [record_A; record_B; record_C; record_D]).
  destruct (indexed_dataset_size (disk (Some four_records))
              DelPagination.__init__
              (DelPagination.set_dataset rows DelPagination.__init__)
              rows eq_refl eq_refl)
    as (d & self'' & Hcall & Hsize & _).
  exists d, self''. split; [exact Hcall|exact Hsize].
Defined.

(** X15. Whatever methods of the class are called on a new instance, in
    whatever order and with whatever happens to the data file in between,
    an index that exists is the first 1000 records of the cached dataset,
    position by position; in particular the index is never there without
    the dataset. *)
Theorem index_consistent_after_calls :
  forall calls : list (FileSystem * del_call),
    index_consistent (run_del_calls calls DelPagination.__init__).
Proof.
  intros calls. unfold run_del_calls.
  assert (index_consistent DelPagination.__init__) as Hinit
    by (intros d Hd; discriminate).
  revert Hinit. generalize DelPagination.__init__ as self.
  induction calls as [|[fs c] calls IH]; intros self Hself.
  - exact Hself.
  - cbn [foldl]. apply IH. now apply run_del_call_consistent.
Qed.

(** ** All the pages of [get_hyper] *)
Section HypermediaPaginationPages.
Import HypermediaPagination.
Variable fs : FileSystem.

(** On an instance that holds its dataset, a run of consecutive pages of
    [get_hyper]: the [data] entries laid end to end are the corresponding
    stretch of the dataset, and every dictionary has the same
    [total_pages]. *)
Lemma hyper_pages_cached (page_size : py_value) (ps : Z) (self : Server)
    (rows : list Row) (q : float) (n first : nat) :
  as_int page_size = Some ps ->
  1 <= ps ->
  _Server__dataset self = Some rows ->
  int_true_divide (len rows) ps = Return q ->
  exists ds,
    for_each (fun page => get_hyper fs page page_size)
      ((fun i => PyInt (Z.of_nat i)) <$> seq (S first) n) self
    = (Return ds, self) /\
    concat (Page.data <$> ds) =
      take (n * Z.to_nat ps) (drop (first * Z.to_nat ps) rows) /\
    Forall (fun d => Page.total_pages d = math_ceil q) ds.
Proof.
  intros Hps Hps1 Hcache Hq. revert first.
  induction n as [|n IH]; intros first.
  - exists []. repeat split. constructor.
  - destruct (IH (S first)) as (ds & Hrest & Hconcat & Htotal).
    destruct (hyper_get_hyper_valid fs (PyInt (Z.of_nat (S first)))
                page_size (Z.of_nat (S first)) ps self self rows
                eq_refl Hps ltac:(lia) Hps1
                (hyper_dataset_cached fs self rows Hcache))
      as (q' & Hq' & Hcall).
    rewrite Hq in Hq'. injection Hq' as <-.
    eexists (_ :: ds). split; [|split].
    + cbn [seq fmap list_fmap for_each]. cbv [bind].
      rewrite Hcall. fold (@fmap list _ nat py_value).
      rewrite Hrest. reflexivity.
    + cbn [fmap list_fmap concat Page.data].
      fold (@fmap list _ Page.t (list Row)).
      rewrite Hconcat, page_slice by lia.
      replace (Z.to_nat (Z.of_nat (S first) - 1)) with first by lia.
      replace (S first * Z.to_nat ps)%nat
        with (first * Z.to_nat ps + Z.to_nat ps)%nat by lia.
      now rewrite <- drop_drop, take_take_drop.
    + constructor; [reflexivity|exact Htotal].
Qed.
End HypermediaPaginationPages.

(** X16. For [1 <= page_size < 2^1075] and a loaded dataset of fewer than
    2^53 records, [total_pages] is the number of pages to ask for: calling
    [get_hyper] for the pages 1 to [total_pages] in turn returns
    dictionaries that all carry the same [total_pages] and whose [data]
    entries, laid end to end, are the whole dataset, each record once and
    in order. *)
Theorem get_hyper_all_pages :
  forall fs page_size ps (self self' : HypermediaPagination.Server)
         (rows : list Row),
    as_int page_size = Some ps ->
    1 <= ps < 2 ^ 1075 ->
    HypermediaPagination.dataset fs self = (Return rows, self') ->
    len rows < 2 ^ 53 ->
    exists total ds,
      is_ceiling total (len rows) ps /\
      (for_each (fun page => HypermediaPagination.get_hyper fs page page_size)
         (page_numbers (Z.to_nat total)) self).1 = Return ds /\
      Forall (fun d => Page.total_pages d = total) ds /\
      concat (Page.data <$> ds) = rows.
Proof.
  intros fs page_size ps self self' rows Hps Hps1 Hds Hlen.
  pose proof (len_nonneg rows) as Hnn.
  destruct (math_ceil_int_true_divide (len rows) ps ltac:(lia) Hps1)
    as (q & Hq & Hceil).
  exists (math_ceil q).
  assert (0 <= math_ceil q) as Htotal by (unfold is_ceiling in *; nia).
  assert (length rows <= Z.to_nat (math_ceil q) * Z.to_nat ps)%nat as Hall
    by (unfold len in *; nia).
  pose proof (hyper_dataset_returns fs self self' rows Hds) as Hcache.
  unfold page_numbers.
  destruct (Z.to_nat (math_ceil q)) as [|n] eqn:Hn.
  - exists []. split; [exact Hceil|]. split; [reflexivity|].
    split; [constructor|].
    symmetry. apply length_zero_iff_nil. lia.
  - destruct (hyper_pages_cached fs page_size ps self' rows q n 1
                Hps ltac:(lia) Hcache Hq) as (ds & Hrest & Hconcat & Hsame).
    destruct (hyper_get_hyper_valid fs (PyInt (Z.of_nat 1)) page_size 1 ps
                self self' rows eq_refl Hps ltac:(lia) ltac:(lia) Hds)
      as (q' & Hq' & Hcall).
    rewrite Hq in Hq'. injection Hq' as <-.
    eexists (_ :: ds). split; [exact Hceil|]. split; [|split].
    + cbn [seq fmap list_fmap for_each]. cbv [bind].
      rewrite Hcall. fold (@fmap list _ nat py_value).
      rewrite Hrest. reflexivity.
    + constructor; [reflexivity|exact Hsame].
    + cbn [fmap list_fmap concat Page.data].
      fold (@fmap list _ Page.t (list Row)).
      rewrite Hconcat, page_slice by lia.
      change (Z.to_nat (1 - 1) * Z.to_nat ps)%nat with 0%nat.
      rewrite drop_0, Nat.mul_1_l, take_take_drop.
      apply take_ge. lia.
Qed.

(** Four records in pages of three are fetched in two calls. *)
Lemma get_hyper_all_pages_witness :
  exists ds,
    (for_each (fun page =>
                 HypermediaPagination.get_hyper (disk (Some four_records))
                   page (PyInt 3))
       (page_numbers 2) HypermediaPagination.__init__).1 = Return ds /\
    concat (Page.data <$> ds) = [record_A; record_B; record_C; record_D].
Proof.
  set (rows := [record_A; record_B; record_C; record_D]).
  assert (2 ^ 53 = 9007199254740992) as H53 by reflexivity.
  assert (3 < 2 ^ 1075) as Hsmall
    by (apply (Z.lt_le_trans _ (2 ^ 2));
        [reflexivity|apply Z.pow_le_mono_r; lia]).
  destruct (get_hyper_all_pages (disk (Some four_records)) (PyInt 3) 3
              HypermediaPagination.__init__
              {| HypermediaPagination._Server__dataset := Some rows |} rows
              eq_refl ltac:(lia) eq_refl ltac:(rewrite H53; reflexivity))
    as (total & ds & Hceil & Hcall & _ & Hconcat).
  assert (total = 2) as ->.
  { apply (is_ceiling_unique _ 2 (len rows) 3); [lia|exact Hceil|].
    unfold is_ceiling. split; reflexivity || discriminate. }
  exists ds. split; [exact Hcall|exact Hconcat].
Defined.

(** ** 0-simple_helper_function.py *)

(** X17. The ranges [index_range] gives to different pages of one size
    do not overlap and leave no gap: each is [page_size] wide, the range of
    page [p + 1] starts where that of page [p] ends, and the range of any
    later page starts at or after that end.  From page 1 on, the bounds
    are not negative. *)
Theorem index_range_pages_tile :
  forall p p' page_size,
    0 <= page_size ->
    p < p' ->
    let '(start, end_) := SimpleHelper.index_range p page_size in
    let '(start', end') := SimpleHelper.index_range p' page_size in
    end_ - start = page_size /\
    end_ <= start' /\
    (p' = p + 1 -> start' = end_) /\
    (1 <= p -> 0 <= start <= end_).
Proof.
  intros p p' page_size Hsize Hlt. unfold SimpleHelper.index_range.
  repeat split; intros; nia.
Qed.

Lemma index_range_pages_tile_witness :
  SimpleHelper.index_range 3 15 = (30, 45) /\
  45 <= fst (SimpleHelper.index_range 5 15).
Proof.
  pose proof (index_range_pages_tile 3 5 15 ltac:(lia) ltac:(lia)) as H.
  split; [reflexivity|]. exact (proj1 (proj2 H)).
Defined.
